(** * Intelligent Procurement Agent: memory layer and approval state machine

    A shallow embedding of [src/memory.py] (class [MemoryLayer]) and
    [src/agent.py] (class [ADKProcurementAgent]).

    - Python [str] is [string] (the UTF-8 bytes of the text).
    - Python values that come out of [json.loads] or go into a metadata
      dictionary are [pyval]; a [dict] is an association list in insertion
      order with unique keys.
    - The methods mutate [self] and may raise: they are computations in the
      monad [M], a state monad over [World] whose results are [Ok] or
      [Raise].  State written before a [raise] stays written, as in Python.
    - The language model, the embedding model, [uuid.uuid4], the ADK runner
      and the storage faults are external: they are the oracles of [Env].
      Every oracle sees the trace of calls made so far, so an environment may
      answer the same request differently at different times.
    - [str.lower], [str.upper], [str.strip], [json.loads] and [repr] belong to
      the Python runtime: they are the fields of the class [PyRuntime].  The
      instance [ascii_runtime] implements them for ASCII text and a subset of
      JSON, to run the model on concrete conversations. *)

From Stdlib Require Import Bool Arith ZArith QArith Lia List.
From Stdlib Require Import Ascii String DecimalString.
From Stdlib Require Import Sorted Permutation.
Import ListNotations.

Set Warnings "-register-all".
Local Close Scope Q_scope.
Local Open Scope string_scope.
Local Open Scope list_scope.

(* ================================================================== *)
(** ** Python values *)

Inductive pyval : Type :=
| PNone
| PBool (b : bool)
| PInt (z : Z)
| PFloat (r : string)           (* a float, held as its [repr] *)
| PStr (s : string)
| PList (l : list pyval)
| PDict (d : list (string * pyval)).

Definition dict := list (string * pyval).

(** [d.get(k)]: [None] stands for Python's [None] of a missing key. *)
Fixpoint dict_get (k : string) (d : dict) : option pyval :=
  match d with
  | [] => None
  | (k', v) :: d' => if String.eqb k k' then Some v else dict_get k d'
  end.

(** [d[k] = v]: an existing key keeps its place, a new key goes last. *)
Fixpoint dict_set (k : string) (v : pyval) (d : dict) : dict :=
  match d with
  | [] => [(k, v)]
  | (k', v') :: d' =>
      if String.eqb k k' then (k, v) :: d' else (k', v') :: dict_set k v d'
  end.

(** Truth value of a Python object, as tested by [if x:]. *)
Definition truthy (v : pyval) : bool :=
  match v with
  | PNone => false
  | PBool b => b
  | PInt z => negb (Z.eqb z 0)
  | PFloat r => negb (String.eqb r "0.0" || String.eqb r "-0.0")
  | PStr s => negb (String.eqb s EmptyString)
  | PList [] => false
  | PList (_ :: _) => true
  | PDict [] => false
  | PDict (_ :: _) => true
  end.

Definition truthy_opt (o : option pyval) : bool :=
  match o with
  | None => false
  | Some v => truthy v
  end.

(** [x == "literal"] for [x] the result of [dict.get]. *)
Definition eq_str (o : option pyval) (s : string) : bool :=
  match o with
  | Some (PStr t) => String.eqb t s
  | _ => false
  end.

Definition type_name (v : pyval) : string :=
  match v with
  | PNone => "NoneType"
  | PBool _ => "bool"
  | PInt _ => "int"
  | PFloat _ => "float"
  | PStr _ => "str"
  | PList _ => "list"
  | PDict _ => "dict"
  end.

Definition nl : string := String (ascii_of_nat 10) EmptyString.

Definition string_of_Z (z : Z) : string :=
  NilZero.string_of_int (Z.to_int z).

(* ================================================================== *)
(** ** The Python runtime *)

Class PyRuntime : Type := {
  str_lower : string -> string;             (* str.lower() *)
  str_upper : string -> string;             (* str.upper() *)
  str_strip : string -> string;             (* str.strip() *)
  json_loads : string -> option pyval;      (* json.loads; [None] when it raises *)
  py_repr : pyval -> string                 (* repr() of a list or a dict *)
}.

(** [needle in haystack] on strings. *)
Fixpoint str_contains (needle hay : string) : bool :=
  if String.prefix needle hay then true
  else match hay with
       | EmptyString => false
       | String _ rest => str_contains needle rest
       end.

(* ================================================================== *)
(** ** Exceptions *)

Inductive exn : Type :=
| ProviderError (msg : string)            (* raised by litellm or the ADK runner *)
| StorageError (msg : string)             (* raised by the vector store *)
| InvalidArgument (msg : string)          (* the store refuses n_results <= 0 *)
| AttributeError (ty attr : string)
| IndexError (msg : string)
| OutputError (msg : string).             (* raised by print on a broken console *)

(** [str(e)]. *)
Definition exn_str (e : exn) : string :=
  match e with
  | ProviderError m => m
  | StorageError m => m
  | InvalidArgument m => m
  | AttributeError ty attr =>
      "'" ++ ty ++ "' object has no attribute '" ++ attr ++ "'"
  | IndexError m => m
  | OutputError m => m
  end.

(* ================================================================== *)
(** ** The store, the agent's state and the outside world *)

Definition Vector := list Q.

Record MemoryRecord : Type := mkRecord {
  rec_id : string;
  rec_document : string;
  rec_embedding : Vector;
  rec_metadata : dict
}.

(** A call that leaves the process. *)
Inductive Call : Type :=
| CallCompletion (prompt : string)
| CallEmbedding (text : string)
| CallUuid4
| CallRunner (message : string).

(** What one event of the ADK runner looks like to [process_message]. *)
Inductive Part : Type :=
| PartText (t : option string)            (* has .text, possibly None *)
| PartOther.                              (* no .text attribute *)

Inductive Content : Type :=
| ContentStr (s : string)
| ContentParts (ps : option (list Part))  (* has .parts, possibly None *)
| ContentOther.

Inductive Event : Type :=
| EventContent (c : Content)              (* has .content *)
| EventText (t : option string)           (* no .content, has .text *)
| EventOther.

Record World : Type := mkWorld {
  collection : list MemoryRecord;         (* self.memory.collection *)
  pending_order : option dict;            (* self.pending_order *)
  calls : list Call                       (* external calls so far, latest first *)
}.

Record Env : Type := mkEnv {
  (* litellm.completion(...).choices[0].message.content *)
  completion : list Call -> string -> exn + option string;
  (* litellm.embedding(...).data[0]["embedding"] *)
  embedding : list Call -> string -> exn + Vector;
  (* str(uuid.uuid4()) *)
  uuid4 : list Call -> string;
  (* the events that runner.run(...) yields, and the exception that ends
     the iteration, if any; the tools that the agent calls meanwhile read
     the store and the vendor file, and write nothing *)
  runner_run : list Call -> string -> list Event * option exn;
  (* the backing store refusing an insert *)
  insert_fault : list Call -> list MemoryRecord -> MemoryRecord -> option exn;
  (* the store's native distance *)
  distance : Vector -> Vector -> Q;
  (* how many of the k neighbours asked for the store's index finds *)
  query_found : list MemoryRecord -> Vector -> nat -> nat;
  (* print(text) failing: a closed or broken console, a text the console
     cannot encode *)
  print_fault : list Call -> string -> option exn
}.

(* ================================================================== *)
(** ** The monad of methods *)

Inductive res (A : Type) : Type :=
| Ok (a : A)
| Raise (e : exn).
Arguments Ok {A} a.
Arguments Raise {A} e.

Definition M (A : Type) : Type := World -> res A * World.

Definition ret {A} (a : A) : M A := fun w => (Ok a, w).

Definition raise {A} (e : exn) : M A := fun w => (Raise e, w).

Definition bind {A B} (m : M A) (k : A -> M B) : M B :=
  fun w =>
    match m w with
    | (Ok a, w') => k a w'
    | (Raise e, w') => (Raise e, w')
    end.

(** [try: m  except Exception as e: h e]. *)
Definition try_except {A} (m : M A) (h : exn -> M A) : M A :=
  fun w =>
    match m w with
    | (Ok a, w') => (Ok a, w')
    | (Raise e, w') => h e w'
    end.

Notation "x <- m ;; k" := (bind m (fun x => k))
  (at level 61, m at next level, right associativity).
Notation "m ;;; k" := (bind m (fun _ => k))
  (at level 61, right associativity).

Definition get_world : M World := fun w => (Ok w, w).

Definition log_call (c : Call) : M unit :=
  fun w => (Ok tt, mkWorld (collection w) (pending_order w) (c :: calls w)).

Definition set_pending_order (p : option dict) : M unit :=
  fun w => (Ok tt, mkWorld (collection w) p (calls w)).

Definition set_collection (c : list MemoryRecord) : M unit :=
  fun w => (Ok tt, mkWorld c (pending_order w) (calls w)).

Definition lift_sum {A} (r : exn + A) : M A :=
  match r with
  | inl e => raise e
  | inr a => ret a
  end.

(* ================================================================== *)
(** ** The vector store *)

Record QueryResult : Type := mkQueryResult {
  q_documents : list (list string);       (* results["documents"] *)
  q_metadatas : list (list dict);         (* results["metadatas"] *)
  q_distances : option (list (list Q))    (* results["distances"], or None *)
}.

(** Insertion of a scored record into a list ordered by ascending score;
    a record goes after the records of equal score already there. *)
Fixpoint insert_scored (x : MemoryRecord * Q) (l : list (MemoryRecord * Q))
  : list (MemoryRecord * Q) :=
  match l with
  | [] => [x]
  | y :: l' =>
      if Qle_bool (snd y) (snd x) then y :: insert_scored x l' else x :: y :: l'
  end.

Fixpoint rank (l : list (MemoryRecord * Q)) : list (MemoryRecord * Q) :=
  match l with
  | [] => []
  | x :: l' => insert_scored x (rank l')
  end.

Section Store.
Variable env : Env.

(** Modelled from the spec: the vector store behind [self.collection] is
    the ChromaDB library, which is not part of the repository.  Section
    4.1 of the specification gives its contract: [insert] persists the
    record atomically or fails with a storage error, and the store keeps
    every record inserted. *)
Definition collection_add (r : MemoryRecord) : M unit :=
  w <- get_world ;;
  match insert_fault env (calls w) (collection w) r with
  | Some e => raise e
  | None => set_collection (collection w ++ [r])%list
  end.

(** Modelled from the spec: [count] is the number of stored records. *)
Definition collection_count : M Z :=
  w <- get_world ;;
  ret (Z.of_nat (List.length (collection w))).

Definition nearest (records : list MemoryRecord) (v : Vector) (k : nat)
  : list (MemoryRecord * Q) :=
  firstn (Nat.min k (query_found env records v k))
    (rank (map (fun r => (r, distance env (rec_embedding r) v)) records)).

(** Modelled from the spec: [query(vector, k)] returns up to [k] of the
    nearest records by the native distance, best match first, one result
    list per query vector; how many it finds is the store's choice
    ([query_found]).  [k <= 0] is refused, the one failure that section 4.1
    names for a query; a store that refuses a vector of another dimension
    is not modelled, the stored vectors and the query vector all come from
    [_get_embedding] with the one configured model. *)
Definition collection_query (v : Vector) (n_results : Z) : M QueryResult :=
  w <- get_world ;;
  if (n_results <=? 0)%Z then
    raise (InvalidArgument "Number of requested results cannot be negative, or zero.")
  else
    let hits := nearest (collection w) v (Z.to_nat n_results) in
    ret (mkQueryResult
           [map (fun h => rec_document (fst h)) hits]
           [map (fun h => rec_metadata (fst h)) hits]
           (Some [map snd hits])).
End Store.

(* ================================================================== *)
(** ** src/memory.py: class MemoryLayer *)

Definition dq : string := String (ascii_of_nat 34) EmptyString.
Definition indent : string := "        ".

Definition extraction_prompt (user_input : string) : string :=
  nl ++ indent ++ "Extract the key constraints, rules, or facts from the following text."
  ++ nl ++ indent ++ "Focus on numerical limits, banned items, preferred vendors, or site-specific instructions."
  ++ nl ++ indent ++ "Return ONLY the extracted facts as a single concise sentence."
  ++ nl
  ++ nl ++ indent ++ "Input: " ++ dq ++ user_input ++ dq
  ++ nl ++ indent ++ "Facts:"
  ++ nl ++ indent.

Arguments extraction_prompt : simpl never.

Definition placeholder_timestamp : string := "2024-01-01T12:00:00".

(** One entry of the list that [search] returns. *)
Record MemoryItem : Type := mkItem {
  item_fact : string;
  item_metadata : dict;
  item_score : Q
}.

(** [l[i]]. *)
Definition index {A} (l : list A) (i : nat) : M A :=
  match nth_error l i with
  | Some a => ret a
  | None => raise (IndexError "list index out of range")
  end.

(** [for i in range(n): acc.append(body i)]. *)
Fixpoint for_range {A} (body : nat -> M A) (start n : nat) (acc : list A)
  : M (list A) :=
  match n with
  | O => ret acc
  | S n' => a <- body start ;; for_range body (S start) n' (acc ++ [a])%list
  end.

Section MemoryLayer.
Context {rt : PyRuntime}.
Variable env : Env.

(** [completion(model=..., messages=[{"role": "user", "content": prompt}])]
    followed by [.choices[0].message.content]. *)
Definition call_completion (prompt : string) : M (option string) :=
  w <- get_world ;;
  log_call (CallCompletion prompt) ;;;
  lift_sum (completion env (calls w) prompt).

(** [content.strip()]. *)
Definition strip_content (content : option string) : M string :=
  match content with
  | Some s => ret (str_strip s)
  | None => raise (AttributeError "NoneType" "strip")
  end.

Definition _get_embedding (text : string) : M Vector :=
  w <- get_world ;;
  log_call (CallEmbedding text) ;;;
  lift_sum (embedding env (calls w) text).

Definition _extract_facts (user_input : string) : M string :=
  content <- call_completion (extraction_prompt user_input) ;;
  strip_content content.

Definition call_uuid4 : M string :=
  w <- get_world ;;
  log_call CallUuid4 ;;;
  ret (uuid4 env (calls w)).

(** [metadata or {}]; a mapping with entries is the caller's own object,
    which the two assignments of [add] then modify in place. *)
Definition metadata_or_empty (metadata : option dict) : dict :=
  match metadata with
  | Some (kv :: d) => kv :: d
  | _ => []
  end.

Definition build_meta (user_input : string) (metadata : option dict) : dict :=
  let meta := metadata_or_empty metadata in
  let meta := dict_set "original_input" (PStr user_input) meta in
  dict_set "timestamp" (PStr placeholder_timestamp) meta.

(** [print(text)]. *)
Definition py_print (text : string) : M unit :=
  w <- get_world ;;
  match print_fault env (calls w) text with
  | Some e => raise e
  | None => ret tt
  end.

Definition add (user_input : string) (metadata : option dict) : M string :=
  fact <- _extract_facts user_input ;;
  vector <- _get_embedding fact ;;
  mem_id <- call_uuid4 ;;
  let meta := build_meta user_input metadata in
  collection_add env (mkRecord mem_id fact vector meta) ;;;
  py_print ("Stored memory: " ++ fact) ;;;
  ret fact.

(** The body of the loop of [search] for index [i]. *)
Definition search_item (results : QueryResult) (docs0 : list string) (i : nat)
  : M MemoryItem :=
  doc <- index docs0 i ;;
  metas0 <- index (q_metadatas results) 0 ;;
  meta <- index metas0 i ;;
  dist <- match q_distances results with
          | Some (d0 :: ds) => dists0 <- index (d0 :: ds) 0 ;; index dists0 i
          | _ => ret 0%Q
          end ;;
  ret (mkItem doc meta dist).

Definition search (query : string) (limit : Z) : M (list MemoryItem) :=
  count <- collection_count ;;
  if (count =? 0)%Z then ret []
  else
    query_vector <- _get_embedding query ;;
    results <- collection_query env query_vector (Z.min limit count) ;;
    match q_documents results with
    | [] => ret []
    | docs0 :: _ => for_range (search_item results docs0) 0 (List.length docs0) []
    end.
End MemoryLayer.

(* ================================================================== *)
(** ** src/agent.py: class ADKProcurementAgent *)

Inductive Intent : Type :=
| APPROVAL_REPLY
| STORE_FACT
| PROCUREMENT_REQUEST
| CHAT.

(** The dictionary that [process_message] returns. *)
Record Response : Type := mkResponse {
  response : string;
  reasoning : string
}.

Definition classification_prompt (user_input : string) : string :=
  nl ++ indent ++ "Classify the following user input into one of these categories:"
  ++ nl ++ indent ++ "1. STORE_FACT: The user is defining a rule, limit, preference, or fact about a site."
  ++ nl ++ indent ++ "2. PROCUREMENT_REQUEST: The user is asking to buy, order, or procure something."
  ++ nl ++ indent ++ "3. CHAT: General conversation (hello, thanks, etc.)."
  ++ nl
  ++ nl ++ indent ++ "Input: " ++ dq ++ user_input ++ dq
  ++ nl ++ indent
  ++ nl ++ indent ++ "Return ONLY the Category Name (STORE_FACT, PROCUREMENT_REQUEST, or CHAT)."
  ++ nl ++ indent.

Arguments classification_prompt : simpl never.

Definition affirmative : list string := ["yes"; "y"; "approve"; "ok"].

Definition open_brace : ascii := ascii_of_nat 123.
Definition close_brace : ascii := ascii_of_nat 125.

(** The suffix of [s] that starts at its first opening brace. *)
Fixpoint from_first_open (s : string) : option string :=
  match s with
  | EmptyString => None
  | String c rest =>
      if Ascii.eqb c open_brace then Some s else from_first_open rest
  end.

(** The prefix of [s] that ends at its last closing brace. *)
Fixpoint upto_last_close (s : string) : option string :=
  match s with
  | EmptyString => None
  | String c rest =>
      match upto_last_close rest with
      | Some p => Some (String c p)
      | None => if Ascii.eqb c close_brace then Some (String c EmptyString) else None
      end
  end.

(** [re.search(r"\{.*\}", text, re.DOTALL)] and [match.group(0)]: the
    leftmost match starts at the first opening brace that has a closing
    brace after it, and the greedy [.*], which crosses newlines, runs to the
    last closing brace of the text. *)
Definition re_search_braces (text : string) : option string :=
  match from_first_open text with
  | Some s => upto_last_close s
  | None => None
  end.

(** [x or empty] for an optional text. *)
Definition or_empty (t : option string) : string :=
  match t with
  | Some s => s
  | None => EmptyString
  end.

Definition part_text (p : Part) : string :=
  match p with
  | PartText t => or_empty t
  | PartOther => EmptyString
  end.

(** The text that one event adds to [response_text]; iterating over
    [c.parts] when it is None raises inside the inner [try], which logs the
    error and adds nothing. *)
Definition event_text (ev : Event) : string :=
  match ev with
  | EventContent (ContentStr s) => s
  | EventContent (ContentParts (Some ps)) => String.concat EmptyString (map part_text ps)
  | EventContent (ContentParts None) => EmptyString
  | EventContent ContentOther => EmptyString
  | EventText t => or_empty t
  | EventOther => EmptyString
  end.

Definition accumulate (events : list Event) : string :=
  fold_left (fun response_text ev => (response_text ++ event_text ev)%string) events EmptyString.

Section Agent.
Context {rt : PyRuntime}.
Variable env : Env.

(** [str(x)] as an f-string field renders it. *)
Definition py_str (v : pyval) : string :=
  match v with
  | PNone => "None"
  | PBool true => "True"
  | PBool false => "False"
  | PInt z => string_of_Z z
  | PFloat r => r
  | PStr s => s
  | PList _ => py_repr v
  | PDict _ => py_repr v
  end.

(** An f-string field holding the result of [d.get(k)]. *)
Definition fmt (o : option pyval) : string :=
  match o with
  | None => "None"
  | Some v => py_str v
  end.

(** [if self.pending_order:]. *)
Definition pending_truthy (w : World) : bool :=
  match pending_order w with
  | Some (_ :: _) => true
  | _ => false
  end.

Definition classify (content : option string) : M Intent :=
  stripped <- strip_content content ;;
  let intent := str_upper stripped in
  if str_contains "STORE_FACT" intent then ret STORE_FACT
  else if str_contains "PROCUREMENT" intent then ret PROCUREMENT_REQUEST
  else ret CHAT.

Definition get_intent (user_input : string) : M Intent :=
  w <- get_world ;;
  if pending_truthy w then ret APPROVAL_REPLY
  else
    try_except
      (content <- call_completion env (classification_prompt user_input) ;;
       classify content)
      (fun _ => ret CHAT).

Definition confirmed_response (order : dict) : Response :=
  mkResponse
    ("✅ **Order Confirmed**." ++ nl ++ "Placed order with "
       ++ fmt (dict_get "selected_vendor" order) ++ ".")
    "User manually approved.".

Definition cancelled_response : Response :=
  mkResponse "❌Order Cancelled." "User denied.".

Definition handle_approval (user_input : string) : M Response :=
  if existsb (String.eqb (str_lower user_input)) affirmative then
    w <- get_world ;;
    let order := pending_order w in
    set_pending_order None ;;;
    match order with
    | Some d => ret (confirmed_response d)
    | None => raise (AttributeError "NoneType" "get")
    end
  else
    set_pending_order None ;;;
    ret cancelled_response.

Definition extract_json (text : string) : option pyval :=
  match re_search_braces text with
  | Some m => json_loads m
  | None => None
  end.

Definition agent_log (response_text : string) : string :=
  "ADK Agent Response:" ++ nl ++ response_text.

Definition approval_required (json_data : dict) (response_text : string)
  : Response :=
  mkResponse
    ("⚠️ **Approval Required**" ++ nl
       ++ "Reason: " ++ fmt (dict_get "reasoning" json_data) ++ nl
       ++ "Cost: " ++ fmt (dict_get "total_cost" json_data) ++ nl
       ++ "Proceed? (y/n)")
    (agent_log response_text).

Definition order_placed (json_data : dict) (response_text : string)
  : Response :=
  mkResponse
    ("✅ **Order Placed**" ++ nl
       ++ "Vendor: " ++ fmt (dict_get "selected_vendor" json_data) ++ nl
       ++ "Cost: " ++ fmt (dict_get "total_cost" json_data) ++ nl
       ++ "Reason: " ++ fmt (dict_get "reasoning" json_data))
    (agent_log response_text).

Definition raw_response (response_text : string) : Response :=
  mkResponse response_text (agent_log response_text).

Definition error_response (e : exn) : Response :=
  mkResponse ("Error: " ++ exn_str e) (exn_str e).

(** Lines 167 to 185: what [process_message] does with the text of the
    agent's answer. *)
Definition decide (response_text : string) : M Response :=
  let json_data := extract_json response_text in
  if truthy_opt json_data then
    match json_data with
    | Some (PDict d) =>
        let status := dict_get "status" d in
        if eq_str status "PAUSE_APPROVAL_NEEDED" then
          set_pending_order (Some d) ;;;
          ret (approval_required d response_text)
        else
          ret (order_placed d response_text)
    | Some v => raise (AttributeError (type_name v) "get")
    | None => ret (raw_response response_text)
    end
  else
    ret (raw_response response_text).

(** The body of the [try] of [process_message]. *)
Definition agent_turn (user_input : string) : M Response :=
  w <- get_world ;;
  log_call (CallRunner user_input) ;;;
  let (events, failure) := runner_run env (calls w) user_input in
  let response_text := accumulate events in
  match failure with
  | Some e => raise e
  | None => decide response_text
  end.

Definition learned_response (fact : string) : Response :=
  mkResponse ("✅ Learned: " ++ fact) "Action: INGESTION via MemoryLayer".

Definition process_message (user_input : string) : M Response :=
  intent <- get_intent user_input ;;
  match intent with
  | APPROVAL_REPLY => handle_approval user_input
  | STORE_FACT =>
      fact <- add env user_input None ;;
      ret (learned_response fact)
  | PROCUREMENT_REQUEST | CHAT =>
      try_except (agent_turn user_input) (fun e => ret (error_response e))
  end.
End Agent.

(* ================================================================== *)
(** ** An executable runtime for ASCII text

    [ascii_runtime] agrees with CPython on text whose letters and white
    space are ASCII, and on JSON documents made of objects, arrays, strings
    with the one-letter escapes, integers, [true], [false] and [null].
    Other documents (fractions, exponents, [\u] escapes, [NaN]) are outside
    that subset and are left undecoded. *)

Module AsciiRuntime.
Local Open Scope nat_scope.

Definition code (c : ascii) : nat := nat_of_ascii c.

Definition lower_char (c : ascii) : ascii :=
  if (65 <=? code c) && (code c <=? 90) then ascii_of_nat (code c + 32) else c.

Definition upper_char (c : ascii) : ascii :=
  if (97 <=? code c) && (code c <=? 122) then ascii_of_nat (code c - 32) else c.

Fixpoint map_string (f : ascii -> ascii) (s : string) : string :=
  match s with
  | EmptyString => EmptyString
  | String c rest => String (f c) (map_string f rest)
  end.

(** White space of [str.strip]: tab to carriage return, the four
    separators and the space. *)
Definition is_space (c : ascii) : bool :=
  ((9 <=? code c) && (code c <=? 13))
  || ((28 <=? code c) && (code c <=? 32)).

Fixpoint lstrip (s : string) : string :=
  match s with
  | EmptyString => EmptyString
  | String c rest => if is_space c then lstrip rest else s
  end.

Fixpoint rstrip (s : string) : string :=
  match s with
  | EmptyString => EmptyString
  | String c rest =>
      match rstrip rest with
      | EmptyString => if is_space c then EmptyString else String c EmptyString
      | r => String c r
      end
  end.

Definition strip (s : string) : string := rstrip (lstrip s).

(** *** A decoder for the JSON subset *)

Definition is_json_ws (c : ascii) : bool :=
  (code c =? 32) || (code c =? 9) || (code c =? 10) || (code c =? 13).

Fixpoint skip_ws (s : string) : string :=
  match s with
  | EmptyString => EmptyString
  | String c rest => if is_json_ws c then skip_ws rest else s
  end.

Definition is_digit (c : ascii) : bool := (48 <=? code c) && (code c <=? 57).

Fixpoint digits (acc : Z) (s : string) : Z * string :=
  match s with
  | EmptyString => (acc, s)
  | String c rest =>
      if is_digit c then digits (acc * 10 + Z.of_nat (code c - 48)) rest
      else (acc, s)
  end.

(** After the integer part: a fraction or an exponent makes a float. *)
Definition starts_float_tail (s : string) : bool :=
  match s with
  | String c (String d _) =>
      ((code c =? 46) && is_digit d)
      || (((code c =? 101) || (code c =? 69))
          && (is_digit d || (code d =? 43) || (code d =? 45)))
  | _ => false
  end.

(** The integer part: a zero, or a nonzero digit and more digits. *)
Definition unsigned_int (s : string) : option (Z * string) :=
  match s with
  | String c rest =>
      if code c =? 48 then Some (0%Z, rest)
      else if is_digit c then Some (digits 0 s)
      else None
  | EmptyString => None
  end.

Definition number (s : string) : option (pyval * string) :=
  let signed :=
    match s with
    | String c rest =>
        if code c =? 45 then
          match unsigned_int rest with
          | Some (z, r) => Some ((- z)%Z, r)
          | None => None
          end
        else unsigned_int s
    | EmptyString => None
    end in
  match signed with
  | Some (z, r) => if starts_float_tail r then None else Some (PInt z, r)
  | None => None
  end.

Definition unescape (c : ascii) : option ascii :=
  let n := code c in
  if (n =? 34) || (n =? 92) || (n =? 47) then Some c
  else if n =? 98 then Some (ascii_of_nat 8)
  else if n =? 102 then Some (ascii_of_nat 12)
  else if n =? 110 then Some (ascii_of_nat 10)
  else if n =? 114 then Some (ascii_of_nat 13)
  else if n =? 116 then Some (ascii_of_nat 9)
  else None.

(** The characters of a string literal after its opening quote. *)
Fixpoint string_body (s : string) : option (string * string) :=
  match s with
  | EmptyString => None
  | String c rest =>
      if code c =? 34 then Some (EmptyString, rest)
      else if code c =? 92 then
        match rest with
        | String e rest' =>
            match unescape e, string_body rest' with
            | Some u, Some (body, r) => Some (String u body, r)
            | _, _ => None
            end
        | EmptyString => None
        end
      else if code c <? 32 then None
      else
        match string_body rest with
        | Some (body, r) => Some (String c body, r)
        | None => None
        end
  end.

Definition literal (word : string) (v : pyval) (s : string)
  : option (pyval * string) :=
  if String.prefix word s
  then Some (v, substring (String.length word) (String.length s - String.length word) s)
  else None.

Fixpoint value (fuel : nat) (s : string) : option (pyval * string) :=
  match fuel with
  | O => None
  | S fuel' =>
      match s with
      | EmptyString => None
      | String c rest =>
          if code c =? 34 then
            match string_body rest with
            | Some (str, r) => Some (PStr str, r)
            | None => None
            end
          else if code c =? 123 then
            match skip_ws rest with
            | String c' r' =>
                if code c' =? 125 then Some (PDict [], r')
                else
                  match members fuel' (String c' r') [] with
                  | Some (d, r) => Some (PDict d, r)
                  | None => None
                  end
            | EmptyString => None
            end
          else if code c =? 91 then
            match skip_ws rest with
            | String c' r' =>
                if code c' =? 93 then Some (PList [], r')
                else
                  match elements fuel' (String c' r') [] with
                  | Some (l, r) => Some (PList l, r)
                  | None => None
                  end
            | EmptyString => None
            end
          else if code c =? 110 then literal "null" PNone s
          else if code c =? 116 then literal "true" (PBool true) s
          else if code c =? 102 then literal "false" (PBool false) s
          else number s
      end
  end

(** The members of an object from the quote of a key on; a key given
    twice keeps its first place and its last value. *)
with members (fuel : nat) (s : string) (acc : dict) : option (dict * string) :=
  match fuel with
  | O => None
  | S fuel' =>
      match s with
      | String c rest =>
          if code c =? 34 then
            match string_body rest with
            | Some (key, r) =>
                match skip_ws r with
                | String colon r1 =>
                    if code colon =? 58 then
                      match value fuel' (skip_ws r1) with
                      | Some (v, r2) =>
                          let acc' := dict_set key v acc in
                          match skip_ws r2 with
                          | String sep r3 =>
                              if code sep =? 125 then Some (acc', r3)
                              else if code sep =? 44
                              then members fuel' (skip_ws r3) acc'
                              else None
                          | EmptyString => None
                          end
                      | None => None
                      end
                    else None
                | EmptyString => None
                end
            | None => None
            end
          else None
      | EmptyString => None
      end
  end

with elements (fuel : nat) (s : string) (acc : list pyval)
     : option (list pyval * string) :=
  match fuel with
  | O => None
  | S fuel' =>
      match value fuel' s with
      | Some (v, r) =>
          let acc' := (acc ++ [v])%list in
          match skip_ws r with
          | String sep r1 =>
              if code sep =? 93 then Some (acc', r1)
              else if code sep =? 44 then elements fuel' (skip_ws r1) acc'
              else None
          | EmptyString => None
          end
      | None => None
      end
  end.

Definition loads (s : string) : option pyval :=
  match value (2 * String.length s + 2) (skip_ws s) with
  | Some (v, r) =>
      match skip_ws r with
      | EmptyString => Some v
      | String _ _ => None
      end
  | None => None
  end.

(** [repr], for strings that need no escaping. *)
Fixpoint repr (v : pyval) : string :=
  match v with
  | PNone => "None"
  | PBool true => "True"
  | PBool false => "False"
  | PInt z => string_of_Z z
  | PFloat r => r
  | PStr s => ("'" ++ s ++ "'")%string
  | PList l =>
      "[" ++ (fix items (l : list pyval) : string :=
                match l with
                | [] => EmptyString
                | x :: l' =>
                    match l' with
                    | [] => repr x
                    | _ :: _ => (repr x ++ ", " ++ items l')%string
                    end
                end) l ++ "]"
  | PDict d =>
      "{" ++ (fix items (d : list (string * pyval)) : string :=
                match d with
                | [] => EmptyString
                | (k, x) :: d' =>
                    match d' with
                    | [] => ("'" ++ k ++ "': " ++ repr x)%string
                    | _ :: _ =>
                        ("'" ++ k ++ "': " ++ repr x ++ ", " ++ items d')%string
                    end
                end) d ++ "}"
  end.

End AsciiRuntime.

#[global] Instance ascii_runtime : PyRuntime := {|
  str_lower := AsciiRuntime.map_string AsciiRuntime.lower_char;
  str_upper := AsciiRuntime.map_string AsciiRuntime.upper_char;
  str_strip := AsciiRuntime.strip;
  json_loads := AsciiRuntime.loads;
  py_repr := AsciiRuntime.repr
|}.


(* ================================================================== *)
(** ** Definitions used by the statements *)

Local Open Scope string_scope.

Definition by_score (a b : MemoryRecord * Q) : Prop := (snd a <= snd b)%Q.

Fixpoint occurs (c : ascii) (s : string) : bool :=
  match s with
  | EmptyString => false
  | String x rest => Ascii.eqb x c || occurs c rest
  end.

Section Runs.
Context {rt : PyRuntime}.
Variable env : Env.

Definition with_call (c : Call) (w : World) : World :=
  mkWorld (collection w) (pending_order w) (c :: calls w).

Definition with_pending (p : option dict) (w : World) : World :=
  mkWorld (collection w) p (calls w).

(** The label that [get_intent] derives from the answer of the
    classification call. *)
Definition intent_of_reply (reply : exn + option string) : Intent :=
  match reply with
  | inr (Some content) =>
      let intent := str_upper (str_strip content) in
      if str_contains "STORE_FACT" intent then STORE_FACT
      else if str_contains "PROCUREMENT" intent then PROCUREMENT_REQUEST
      else CHAT
  | _ => CHAT
  end.

(** The record that [add] builds once extraction and embedding have
    answered. *)
Definition new_record (w : World) (user_input : string)
  (metadata : option dict) (fact : string) (vector : Vector)
  : MemoryRecord :=
  let prompt := extraction_prompt user_input in
  mkRecord
    (uuid4 env (CallEmbedding fact :: CallCompletion prompt :: calls w))
    fact vector (build_meta user_input metadata).

Definition trace_after_add (w : World) (user_input fact : string) : list Call :=
  CallUuid4 :: CallEmbedding fact
    :: CallCompletion (extraction_prompt user_input) :: calls w.

(** The runs of [add], one per answer of the collaborators. *)
Inductive add_run (user_input : string) (metadata : option dict) (w : World)
  : res string -> World -> Prop :=
| add_extract_fails e :
    completion env (calls w) (extraction_prompt user_input) = inl e ->
    add_run user_input metadata w (Raise e)
      (mkWorld (collection w) (pending_order w)
         (CallCompletion (extraction_prompt user_input) :: calls w))
| add_extract_empty :
    completion env (calls w) (extraction_prompt user_input) = inr None ->
    add_run user_input metadata w (Raise (AttributeError "NoneType" "strip"))
      (mkWorld (collection w) (pending_order w)
         (CallCompletion (extraction_prompt user_input) :: calls w))
| add_embed_fails content e :
    completion env (calls w) (extraction_prompt user_input) = inr (Some content) ->
    embedding env (CallCompletion (extraction_prompt user_input) :: calls w)
      (str_strip content) = inl e ->
    add_run user_input metadata w (Raise e)
      (mkWorld (collection w) (pending_order w)
         (CallEmbedding (str_strip content)
            :: CallCompletion (extraction_prompt user_input) :: calls w))
| add_insert_fails content vector e :
    completion env (calls w) (extraction_prompt user_input) = inr (Some content) ->
    embedding env (CallCompletion (extraction_prompt user_input) :: calls w)
      (str_strip content) = inr vector ->
    insert_fault env (trace_after_add w user_input (str_strip content))
      (collection w)
      (new_record w user_input metadata (str_strip content) vector) = Some e ->
    add_run user_input metadata w (Raise e)
      (mkWorld (collection w) (pending_order w)
         (trace_after_add w user_input (str_strip content)))
| add_print_fails content vector e :
    completion env (calls w) (extraction_prompt user_input) = inr (Some content) ->
    embedding env (CallCompletion (extraction_prompt user_input) :: calls w)
      (str_strip content) = inr vector ->
    insert_fault env (trace_after_add w user_input (str_strip content))
      (collection w)
      (new_record w user_input metadata (str_strip content) vector) = None ->
    print_fault env (trace_after_add w user_input (str_strip content))
      ("Stored memory: " ++ str_strip content) = Some e ->
    add_run user_input metadata w (Raise e)
      (mkWorld
         (collection w
            ++ [new_record w user_input metadata (str_strip content) vector])%list
         (pending_order w)
         (trace_after_add w user_input (str_strip content)))
| add_stores content vector :
    completion env (calls w) (extraction_prompt user_input) = inr (Some content) ->
    embedding env (CallCompletion (extraction_prompt user_input) :: calls w)
      (str_strip content) = inr vector ->
    insert_fault env (trace_after_add w user_input (str_strip content))
      (collection w)
      (new_record w user_input metadata (str_strip content) vector) = None ->
    print_fault env (trace_after_add w user_input (str_strip content))
      ("Stored memory: " ++ str_strip content) = None ->
    add_run user_input metadata w (Ok (str_strip content))
      (mkWorld
         (collection w
            ++ [new_record w user_input metadata (str_strip content) vector])%list
         (pending_order w)
         (trace_after_add w user_input (str_strip content))).

Definition item_of_hit (h : MemoryRecord * Q) : MemoryItem :=
  mkItem (rec_document (fst h)) (rec_metadata (fst h)) (snd h).

Definition result_of_hits (hits : list (MemoryRecord * Q)) : QueryResult :=
  mkQueryResult
    [map (fun h => rec_document (fst h)) hits]
    [map (fun h => rec_metadata (fst h)) hits]
    (Some [map snd hits]).

(** *** Reachable states *)

(** The agent starts with no pending order over whatever the store holds
    on disk, and moves by [process_message] only. *)
Inductive reachable : World -> Prop :=
| reachable_init records :
    reachable (mkWorld records None [])
| reachable_step w user_input :
    reachable w ->
    reachable (snd (process_message env user_input w)).

Definition pending_nonempty (w : World) : Prop :=
  pending_order w <> Some [].

End Runs.

(* ================================================================== *)
(** ** The specification's readings, for comparison *)

(** Walking back from a closing brace to the opening brace that balances
    it; [before] is the text in front, nearest character first. *)
Fixpoint matching_open (depth : nat) (before : list ascii) (region : string)
  : option string :=
  match before with
  | [] => None
  | c :: rest =>
      if Ascii.eqb c close_brace then
        matching_open (S depth) rest (String c region)
      else if Ascii.eqb c open_brace then
        match depth with
        | O => Some (String c region)
        | S depth' => matching_open depth' rest (String c region)
        end
      else matching_open depth rest (String c region)
  end.

Fixpoint last_block_from {rt : PyRuntime} (reversed : list ascii) : option dict :=
  match reversed with
  | [] => None
  | c :: before =>
      if Ascii.eqb c close_brace then
        match matching_open 0 before (String c EmptyString) with
        | Some region =>
            match json_loads region with
            | Some (PDict d) => Some d
            | _ => last_block_from before
            end
        | None => last_block_from before
        end
      else last_block_from before
  end.

(** The decision block as the specification words it: the last balanced
    brace-delimited region of the text that decodes as an object. *)
Definition spec_last_decision_block {rt : PyRuntime} (text : string)
  : option dict :=
  last_block_from (rev (list_ascii_of_string text)).

(** The Order-Placed summary with an absent field rendered as the empty
    text. *)
Definition fmt_blank {rt : PyRuntime} (o : option pyval) : string :=
  match o with
  | None => EmptyString
  | Some v => py_str v
  end.

Definition spec_order_placed {rt : PyRuntime} (json_data : dict)
  (response_text : string) : Response :=
  mkResponse
    ("✅ **Order Placed**" ++ nl
       ++ "Vendor: " ++ fmt_blank (dict_get "selected_vendor" json_data) ++ nl
       ++ "Cost: " ++ fmt_blank (dict_get "total_cost" json_data) ++ nl
       ++ "Reason: " ++ fmt_blank (dict_get "reasoning" json_data))
    (agent_log response_text).

(* ================================================================== *)
(** ** Concrete conversations *)

Module Scenario.

(** Squared Euclidean distance. *)
Definition sq_l2 (a b : Vector) : Q :=
  fold_left Qplus
    (map (fun p => ((fst p - snd p) * (fst p - snd p))%Q) (combine a b)) 0%Q.

(** An environment that answers from a script: one answer for the
    classification prompt, one for the extraction prompt, one embedding,
    one run of the agent, one verdict of the store on inserts; the index
    finds every neighbour asked for and the console works. *)
Definition scripted (classification extraction : exn + option string)
  (vector : exn + Vector) (agent : list Event * option exn)
  (fault : option exn) : Env :=
  mkEnv
    (fun _ prompt =>
       if String.prefix (nl ++ indent ++ "Classify") prompt
       then classification else extraction)
    (fun _ _ => vector)
    (fun trace => "uuid-" ++ string_of_Z (Z.of_nat (List.length trace)))
    (fun _ _ => agent)
    (fun _ _ _ => fault)
    sq_l2
    (fun _ _ k => k)
    (fun _ _ => None).

Definition says (text : string) : list Event * option exn :=
  ([EventContent (ContentParts (Some [PartText (Some text)]))], None).

Definition quoted (s : string) : string := dq ++ s ++ dq.

Definition idle : World := mkWorld [] None [].

(** The agent asks for approval, in a fenced block after its prose. *)
Definition pause_answer : string :=
  "The quote of 60000 is above the limit of 50000." ++ nl
  ++ "```json" ++ nl
  ++ "{" ++ nl
  ++ "    " ++ quoted "selected_vendor" ++ ": " ++ quoted "BuildMart" ++ "," ++ nl
  ++ "    " ++ quoted "price_per_unit" ++ ": 300," ++ nl
  ++ "    " ++ quoted "total_cost" ++ ": 60000," ++ nl
  ++ "    " ++ quoted "status" ++ ": " ++ quoted "PAUSE_APPROVAL_NEEDED" ++ "," ++ nl
  ++ "    " ++ quoted "reasoning" ++ ": " ++ quoted "Total cost exceeds the limit" ++ nl
  ++ "}" ++ nl
  ++ "```".

Definition pause_block : dict :=
  [("selected_vendor", PStr "BuildMart");
   ("price_per_unit", PInt 300);
   ("total_cost", PInt 60000);
   ("status", PStr "PAUSE_APPROVAL_NEEDED");
   ("reasoning", PStr "Total cost exceeds the limit")].

Definition env_pause : Env :=
  scripted (inr (Some "PROCUREMENT_REQUEST")) (inr None) (inr [])
    (says pause_answer) None.

Definition pending : World :=
  snd (process_message env_pause "Order 200 bags of cement" idle).

(** The agent places the order. *)
Definition placed_answer : string :=
  "Within the limit. {" ++ quoted "selected_vendor" ++ ": " ++ quoted "BuildMart"
  ++ ", " ++ quoted "total_cost" ++ ": 30000, "
  ++ quoted "status" ++ ": " ++ quoted "ORDER_PLACED" ++ ", "
  ++ quoted "reasoning" ++ ": " ++ quoted "Cheapest vendor" ++ "}".

Definition placed_block : dict :=
  [("selected_vendor", PStr "BuildMart");
   ("total_cost", PInt 30000);
   ("status", PStr "ORDER_PLACED");
   ("reasoning", PStr "Cheapest vendor")].

Definition env_placed : Env :=
  scripted (inr (Some "PROCUREMENT_REQUEST")) (inr None) (inr [])
    (says placed_answer) None.

(** A status outside the two expected values, and nothing else. *)
Definition odd_answer : string :=
  "{" ++ quoted "status" ++ ": " ++ quoted "SHIPPED" ++ "}".

Definition env_odd : Env :=
  scripted (inr (Some "CHAT")) (inr None) (inr []) (says odd_answer) None.

Definition env_empty_object : Env :=
  scripted (inr (Some "CHAT")) (inr None) (inr []) (says "{}") None.

(** Two objects in one answer: a vendor quote, then the decision. *)
Definition two_objects_answer : string :=
  "Best quote: {" ++ quoted "vendor" ++ ": " ++ quoted "BuildMart" ++ "}. Decision: {"
  ++ quoted "status" ++ ": " ++ quoted "PAUSE_APPROVAL_NEEDED" ++ "}".

Definition env_two_objects : Env :=
  scripted (inr (Some "PROCUREMENT_REQUEST")) (inr None) (inr [])
    (says two_objects_answer) None.

(** The provider is down. *)
Definition env_down : Env :=
  scripted (inl (ProviderError "rate limit exceeded")) (inl (ProviderError "rate limit exceeded"))
    (inl (ProviderError "rate limit exceeded"))
    ([EventText (Some "Let me check")], Some (ProviderError "connection reset"))
    None.

Definition env_runner_down : Env :=
  scripted (inr (Some "PROCUREMENT_REQUEST")) (inr None) (inr [])
    ([EventText (Some "Let me check")], Some (ProviderError "connection reset"))
    None.

(** Teaching a fact. *)
Definition env_learn : Env :=
  scripted (inr (Some " STORE_FACT ")) (inr (Some "Cement purchase limit is 50,000 "))
    (inr [1%Q; 0%Q]) (says "ok") None.

End Scenario.

(* ================================================================== *)
(** ** src/memory.py: get_all *)

Record GetResult : Type := mkGetResult {
  g_documents : list string;              (* results["documents"] *)
  g_metadatas : list dict                 (* results["metadatas"] *)
}.

(** One entry of the list that [get_all] returns. *)
Record Memory : Type := mkMemory {
  mem_fact : string;
  mem_metadata : dict
}.

(** Modelled from the spec: [get] is the full scan of section 4.1; it
    returns every stored record and does not fail.  Section 4.1 leaves the
    order of the scan to the store; the model lists the records in the
    order of their insertion, and the statements that relate [add] to a
    later scan are given up to permutation, so that they do not depend on
    this choice. *)
Definition collection_get : M GetResult :=
  w <- get_world ;;
  ret (mkGetResult (map rec_document (collection w))
         (map rec_metadata (collection w))).

(** The body of the loop of [get_all] for index [i]. *)
Definition get_all_item (results : GetResult) (i : nat) : M Memory :=
  doc <- index (g_documents results) i ;;
  meta <- index (g_metadatas results) i ;;
  ret (mkMemory doc meta).

Definition get_all : M (list Memory) :=
  count <- collection_count ;;
  if (count =? 0)%Z then ret []
  else
    results <- collection_get ;;
    match g_documents results with
    | [] => ret []
    | _ :: _ =>
        for_range (get_all_item results) 0 (List.length (g_documents results)) []
    end.

(** The entry of [get_all] for a stored record. *)
Definition memory_of (r : MemoryRecord) : Memory :=
  mkMemory (rec_document r) (rec_metadata r).

(* ================================================================== *)
(** ** src/agent.py: the tools handed to the agent *)

Section AgentTools.
Context {rt : PyRuntime}.
Variable env : Env.

Definition no_rules_message : string := "No specific rules found in memory.".

(** [search] is called with its default limit, 3. *)
Definition consult_memory_tool (query : string) : M string :=
  results <- search env query 3 ;;
  match results with
  | [] => ret no_rules_message
  | _ :: _ =>
      ret (String.concat nl (map (fun m => "- " ++ item_fact m) results))
  end.
End AgentTools.

(* ================================================================== *)
(** ** src/tools.py: search_vendors_tool *)

Module Tools.

(** What the vendor search can raise. *)
Inductive tool_exn : Type :=
| FileError (msg : string)                (* open or json.load failed *)
| KeyError (key : string)                 (* d[key] on a dict without key *)
| NotSubscriptable (ty : string)          (* TypeError of v["product"] *)
| NotIterable (ty : string)               (* TypeError of the loop over vendors *)
| NoAttribute (ty attr : string).         (* AttributeError of .lower() *)

Section VendorSearch.
Context {rt : PyRuntime}.
(* get_mock_vendors(): the decoded content of mock_vendors.json *)
Variable mock_vendors : tool_exn + pyval.
(* json.dumps(matches, indent=2) *)
Variable json_dumps : list pyval -> string.

(** [v["product"].lower()]. *)
Definition product_lower (v : pyval) : tool_exn + string :=
  match v with
  | PDict d =>
      match dict_get "product" d with
      | Some (PStr s) => inr (str_lower s)
      | Some x => inl (NoAttribute (type_name x) "lower")
      | None => inl (KeyError "product")
      end
  | x => inl (NotSubscriptable (type_name x))
  end.

(** [[v for v in vendors if needle in v["product"].lower()]]: the first
    vendor whose test raises ends the comprehension. *)
Fixpoint select (needle : string) (vendors : list pyval)
  : tool_exn + list pyval :=
  match vendors with
  | [] => inr []
  | v :: rest =>
      match product_lower v with
      | inl e => inl e
      | inr p =>
          match select needle rest with
          | inl e => inl e
          | inr ms => inr (if str_contains needle p then v :: ms else ms)
          end
      end
  end.

(** The values that [for v in vendors] visits: the items of a list, the
    keys of a dict, the characters of a text. *)
Definition iterate (vendors : pyval) : tool_exn + list pyval :=
  match vendors with
  | PList l => inr l
  | PDict d => inr (map (fun kv => PStr (fst kv)) d)
  | PStr s => inr (map (fun c => PStr (String c EmptyString)) (list_ascii_of_string s))
  | x => inl (NotIterable (type_name x))
  end.

Definition matches (product_name : string) : tool_exn + list pyval :=
  match mock_vendors with
  | inl e => inl e
  | inr vendors =>
      match iterate vendors with
      | inl e => inl e
      | inr vs => select (str_lower product_name) vs
      end
  end.

Definition search_vendors_tool (product_name : string) : tool_exn + string :=
  match matches product_name with
  | inl e => inl e
  | inr ms => inr (json_dumps ms)
  end.

(** The wrapper that [ADKProcurementAgent] registers as a tool. *)
Definition search_vendors_wrapper (product_name : string) : tool_exn + string :=
  search_vendors_tool product_name.


Definition has_product (v : pyval) : Prop :=
  exists p, product_lower v = inr p.
End VendorSearch.

End Tools.

(* ================================================================== *)
(** ** src/config.py: class Config *)

Module Config.

(** [os.getenv(key, default)]. *)
Definition getenv (environ : string -> option string) (key default : string)
  : string :=
  match environ key with
  | Some v => v
  | None => default
  end.

(** The provider-qualified name that LiteLLM expects. *)
Definition model_string (provider model_name : string) : string :=
  if negb (String.eqb provider EmptyString)
     && negb (String.prefix (provider ++ "/") model_name)
  then provider ++ "/" ++ model_name
  else model_name.

Section Environment.
Variable environ : string -> option string.

Definition LLM_PROVIDER : string := getenv environ "LLM_PROVIDER" "vertex_ai".
Definition LLM_MODEL_NAME : string := getenv environ "LLM_MODEL_NAME" "gemini-1.5-pro".
Definition LLM_MODEL_STRING : string := model_string LLM_PROVIDER LLM_MODEL_NAME.

Definition EMBEDDING_PROVIDER : string :=
  getenv environ "EMBEDDING_PROVIDER" "vertex_ai".
Definition EMBEDDING_MODEL_NAME : string :=
  getenv environ "EMBEDDING_MODEL_NAME" "text-embedding-004".
Definition EMBEDDING_MODEL_STRING : string :=
  model_string EMBEDDING_PROVIDER EMBEDDING_MODEL_NAME.

Definition VECTOR_DB_PATH : string := getenv environ "VECTOR_DB_PATH" "./chroma_db".
Definition OLLAMA_API_BASE : string :=
  getenv environ "OLLAMA_API_BASE" "http://localhost:11434".
End Environment.

End Config.

(* ================================================================== *)
(** ** app.py: the chat handlers *)

Module App.

(** A message of the chat history. *)
Record Turn : Type := mkTurn {
  turn_role : string;
  turn_content : string
}.

(** The table that the knowledge-base tab shows. *)
Record DataFrame : Type := mkDataFrame {
  df_columns : list string;
  df_rows : list (list pyval)
}.

Definition user_turn (user_message : string) (history : list Turn)
  : string * list Turn :=
  (EmptyString, (history ++ [mkTurn "user" user_message])%list).

(** [history[-1]]. *)
Definition last_turn (history : list Turn) : M Turn :=
  match rev history with
  | t :: _ => ret t
  | [] => raise (IndexError "list index out of range")
  end.

(** [meta.get("timestamp", "")]. *)
Definition timestamp_of (meta : dict) : pyval :=
  match dict_get "timestamp" meta with
  | Some v => v
  | None => PStr EmptyString
  end.

(** The row of the table for one memory. *)
Definition row_of (m : Memory) : list pyval :=
  [PStr (mem_fact m); timestamp_of (mem_metadata m)].

Section Handlers.
Context {rt : PyRuntime}.
Variable env : Env.

Definition chat_response (message : string) (history : list Turn)
  : M (string * string) :=
  result <- process_message env message ;;
  ret (response result, reasoning result).

Definition bot_turn (history : list Turn) : M (list Turn * string) :=
  t <- last_turn history ;;
  answer <- chat_response (turn_content t) history ;;
  ret ((history ++ [mkTurn "assistant" (fst answer)])%list, snd answer).

(** [pd.DataFrame(columns=[...])] for no memory, [pd.DataFrame(data)] for
    the list of rows, whose columns are the keys of the row dictionaries. *)
Definition get_memory_df : M DataFrame :=
  memories <- get_all ;;
  match memories with
  | [] => ret (mkDataFrame ["Fact"; "Metadata"] [])
  | _ :: _ =>
      ret (mkDataFrame ["Fact"; "Timestamp"] (map row_of memories))
  end.
End Handlers.

End App.

(* ================================================================== *)
(** ** More concrete data *)

Module Shop.

(** [json.dumps(x, indent=2)] for values whose texts are ASCII without
    quotes, backslashes or control characters. *)
Fixpoint spaces (n : nat) : string :=
  match n with
  | O => EmptyString
  | S n' => String " " (spaces n')
  end.

Fixpoint dumps (level : nat) (v : pyval) : string :=
  match v with
  | PNone => "null"
  | PBool true => "true"
  | PBool false => "false"
  | PInt z => string_of_Z z
  | PFloat r => r
  | PStr s => (dq ++ s ++ dq)%string
  | PList [] => "[]"
  | PList l =>
      ("[" ++ nl
       ++ (fix items (l : list pyval) : string :=
             match l with
             | [] => EmptyString
             | x :: l' =>
                 (spaces (2 * S level) ++ dumps (S level) x
                  ++ match l' with
                     | [] => nl
                     | _ :: _ => "," ++ nl ++ items l'
                     end)%string
             end) l
       ++ spaces (2 * level) ++ "]")%string
  | PDict [] => "{}"
  | PDict d =>
      ("{" ++ nl
       ++ (fix items (d : list (string * pyval)) : string :=
             match d with
             | [] => EmptyString
             | (k, x) :: d' =>
                 (spaces (2 * S level) ++ dq ++ k ++ dq ++ ": "
                  ++ dumps (S level) x
                  ++ match d' with
                     | [] => nl
                     | _ :: _ => "," ++ nl ++ items d'
                     end)%string
             end) d
       ++ spaces (2 * level) ++ "}")%string
  end.

Definition json_dumps (ms : list pyval) : string := dumps 0 (PList ms).

Definition vendor (name product : string) (price : Z) : pyval :=
  PDict [("vendor", PStr name); ("product", PStr product); ("price", PInt price)].

Definition vendors : list pyval :=
  [vendor "BuildMart" "Portland Cement" 300;
   vendor "SteelCo" "Steel Rods" 1200;
   vendor "CemEx" "White cement" 340].

(** The store after the fact of the specification's scenario was learned. *)
Definition learned : World :=
  snd (process_message Scenario.env_learn "Limit is 50k for cement"
         Scenario.idle).

(** The classifier says STORE_FACT, then the provider fails. *)
Definition env_learn_down : Env :=
  Scenario.scripted (inr (Some "STORE_FACT"))
    (inl (ProviderError "rate limit exceeded")) (inr [])
    (Scenario.says "ok") None.

(** The console is broken: everything answers, but [print] raises. *)
Definition env_console_down : Env :=
  mkEnv (completion Scenario.env_learn) (embedding Scenario.env_learn)
    (uuid4 Scenario.env_learn) (runner_run Scenario.env_learn)
    (insert_fault Scenario.env_learn) (distance Scenario.env_learn)
    (query_found Scenario.env_learn)
    (fun _ _ => Some (OutputError "I/O operation on closed file")).

(** The agent answers in prose, without any decision block. *)
Definition env_prose : Env :=
  Scenario.scripted (inr (Some "CHAT")) (inr None) (inr [])
    ([EventText (Some "Let me check")], None) None.

(** The classifier names both labels. *)
Definition env_two_labels : Env :=
  Scenario.scripted (inr (Some "store_fact rather than procurement_request"))
    (inr (Some "A fact")) (inr []) (Scenario.says "ok") None.

End Shop.

(* ================================================================== *)
(** ** Proofs *)

Ltac unfold_monad :=
  unfold bind, ret, raise, try_except, get_world, log_call, set_pending_order,
    set_collection, lift_sum in *.


(* ================================================================== *)
(** ** Properties of MemoryLayer *)

Section MemoryLayerFacts.
Context {rt : PyRuntime}.
Variable env : Env.

Lemma add_runs user_input metadata w :
  add_run env user_input metadata w
    (fst (add env user_input metadata w))
    (snd (add env user_input metadata w)).
Proof.
  unfold add, _extract_facts, _get_embedding, call_uuid4, call_completion,
    strip_content, collection_add, py_print.
  unfold_monad. cbn [calls collection pending_order].
  destruct (completion env (calls w) (extraction_prompt user_input))
    as [e | [content | ]] eqn:Hc; cbn.
  - now apply add_extract_fails.
  - destruct (embedding env
                (CallCompletion (extraction_prompt user_input) :: calls w)
                (str_strip content)) as [e | vector] eqn:He; cbn.
    + now apply add_embed_fails with (content := content).
    + destruct (insert_fault env
                  (CallUuid4 :: CallEmbedding (str_strip content)
                     :: CallCompletion (extraction_prompt user_input) :: calls w)
                  (collection w)
                  (mkRecord
                     (uuid4 env (CallEmbedding (str_strip content)
                        :: CallCompletion (extraction_prompt user_input) :: calls w))
                     (str_strip content) vector (build_meta user_input metadata)))
        as [e | ] eqn:Hi; cbn.
      * now apply add_insert_fails with (content := content) (vector := vector).
      * match goal with
        | |- context [print_fault env ?t ?s] =>
            destruct (print_fault env t s) as [e | ] eqn:Hprint
        end; cbn.
        -- apply add_print_fails with (content := content) (vector := vector);
             assumption.
        -- apply add_stores with (vector := vector); assumption.
  - now apply add_extract_empty.
Qed.

Lemma dict_get_set_same k v (d : dict) :
  dict_get k (dict_set k v d) = Some v.
Proof.
  induction d as [ | [k' v'] d IH]; simpl.
  - now rewrite String.eqb_refl.
  - destruct (String.eqb k k') eqn:E; simpl.
    + now rewrite String.eqb_refl.
    + now rewrite E.
Qed.

Lemma dict_get_set_other k k' v (d : dict) :
  k' <> k -> dict_get k' (dict_set k v d) = dict_get k' d.
Proof.
  intros Hne. induction d as [ | [k0 v0] d IH]; simpl.
  - destruct (String.eqb k' k) eqn:E; [ | reflexivity].
    apply String.eqb_eq in E. contradiction.
  - destruct (String.eqb k k0) eqn:E; simpl.
    + apply String.eqb_eq in E. subst k0.
      destruct (String.eqb k' k) eqn:E'; [ | reflexivity].
      apply String.eqb_eq in E'. contradiction.
    + now rewrite IH.
Qed.

Lemma build_meta_timestamp user_input metadata :
  dict_get "timestamp" (build_meta user_input metadata)
  = Some (PStr placeholder_timestamp).
Proof. unfold build_meta. apply dict_get_set_same. Qed.

Lemma build_meta_original_input user_input metadata :
  dict_get "original_input" (build_meta user_input metadata)
  = Some (PStr user_input).
Proof.
  unfold build_meta.
  rewrite dict_get_set_other by discriminate.
  apply dict_get_set_same.
Qed.

Lemma build_meta_other user_input metadata k :
  k <> "original_input" -> k <> "timestamp" ->
  dict_get k (build_meta user_input metadata)
  = dict_get k (metadata_or_empty metadata).
Proof.
  intros H1 H2. unfold build_meta.
  now rewrite !dict_get_set_other by assumption.
Qed.

(** C1 (amended). [MemoryLayer.add] writes the store once or not at all.
    Either it returns the fact that the extraction call produced and the
    store holds exactly one record more, whose document is that fact; or it
    raises.  When the extraction call, the embedding call or the insert
    fails, it raises and the store holds the records it held before.  It
    raises with the new record already stored in one case only: the
    [print] that follows the insert failed. *)
Theorem add_writes_once_or_not_at_all (user_input : string)
  (metadata : option dict) (w : World) :
  let r := fst (add env user_input metadata w) in
  let w' := snd (add env user_input metadata w) in
  let prompt := extraction_prompt user_input in
  ((exists content record,
       completion env (calls w) prompt = inr (Some content)
       /\ r = Ok (str_strip content)
       /\ rec_document record = str_strip content
       /\ collection w' = (collection w ++ [record])%list)
   \/ (exists e, r = Raise e /\ collection w' = collection w)
   \/ (exists e record,
         r = Raise e
         /\ collection w' = (collection w ++ [record])%list
         /\ print_fault env (calls w') ("Stored memory: " ++ rec_document record)
            = Some e))
  /\ (forall e,
        completion env (calls w) prompt = inl e ->
        r = Raise e /\ collection w' = collection w)
  /\ (forall content e,
        completion env (calls w) prompt = inr (Some content) ->
        embedding env (CallCompletion prompt :: calls w) (str_strip content)
        = inl e ->
        r = Raise e /\ collection w' = collection w)
  /\ (forall content vector e,
        completion env (calls w) prompt = inr (Some content) ->
        embedding env (CallCompletion prompt :: calls w) (str_strip content)
        = inr vector ->
        insert_fault env (trace_after_add w user_input (str_strip content))
          (collection w)
          (new_record env w user_input metadata (str_strip content) vector)
        = Some e ->
        r = Raise e /\ collection w' = collection w).
Proof.
  intros r w' prompt. subst r w' prompt.
  pose proof (add_runs user_input metadata w) as Hrun.
  split; [ | split; [ | split]].
  - inversion Hrun as [e Hc Hr Hw | Hc Hr Hw | content e Hc He Hr Hw
                      | content vector e Hc He Hi Hr Hw
                      | content vector e Hc He Hi Hp Hr Hw
                      | content vector Hc He Hi Hp Hr Hw].
    + right; left. eexists. split; reflexivity.
    + right; left. eexists. split; reflexivity.
    + right; left. eexists. split; reflexivity.
    + right; left. eexists. split; reflexivity.
    + right; right.
      exists e, (new_record env w user_input metadata (str_strip content) vector).
      split; [reflexivity | split; [reflexivity | exact Hp]].
    + left.
      exists content, (new_record env w user_input metadata (str_strip content) vector).
      repeat split; assumption || reflexivity.
  - intros e Hfail.
    inversion Hrun; split; congruence || reflexivity.
  - intros content e Hc He.
    inversion Hrun; split; congruence || reflexivity.
  - intros content vector e Hc He Hi.
    inversion Hrun; split; congruence || reflexivity.
Qed.

(** C8 (the code against the claim). Whatever the environment, the input
    and the supplied mapping, a record that [add] stores carries the
    constant ["2024-01-01T12:00:00"] under [timestamp], next to the user
    input under [original_input], the supplied entries under their other
    keys and the identifier that [uuid4] returned. *)
Theorem add_stores_placeholder_timestamp (user_input : string)
  (metadata : option dict) (w : World) :
  let w' := snd (add env user_input metadata w) in
  collection w' = collection w
  \/ exists record,
      collection w' = (collection w ++ [record])%list
      /\ dict_get "timestamp" (rec_metadata record)
         = Some (PStr "2024-01-01T12:00:00")
      /\ dict_get "original_input" (rec_metadata record)
         = Some (PStr user_input)
      /\ (forall k, k <> "original_input" -> k <> "timestamp" ->
            dict_get k (rec_metadata record)
            = dict_get k (metadata_or_empty metadata))
      /\ rec_id record
         = uuid4 env (CallEmbedding (rec_document record)
                        :: CallCompletion (extraction_prompt user_input)
                        :: calls w).
Proof.
  intros w'. subst w'.
  pose proof (add_runs user_input metadata w) as Hrun.
  inversion Hrun as [e Hc Hr Hw | Hc Hr Hw | content e Hc He Hr Hw
                    | content vector e Hc He Hi Hr Hw
                    | content vector e Hc He Hi Hp Hr Hw
                    | content vector Hc He Hi Hp Hr Hw];
    try (left; reflexivity).
  all: right;
    exists (new_record env w user_input metadata (str_strip content) vector);
    split; [reflexivity | ];
    split; [apply build_meta_timestamp | ];
    split; [apply build_meta_original_input | ];
    split; [intros k H1 H2; now apply build_meta_other | reflexivity].
Qed.
End MemoryLayerFacts.

(* ================================================================== *)
(** ** Ranking and search *)

Lemma Qle_bool_false (x y : Q) : Qle_bool x y = false -> (y <= x)%Q.
Proof.
  intros H. apply Qlt_le_weak. apply Qnot_le_lt.
  intros Hle. apply Qle_bool_iff in Hle. congruence.
Qed.

Lemma insert_scored_In x l y :
  In y (insert_scored x l) -> y = x \/ In y l.
Proof.
  induction l as [ | z l IH]; simpl.
  - intros [-> | []]. now left.
  - destruct (Qle_bool (snd z) (snd x)); simpl.
    + intros [-> | H]; [right; now left | ].
      destruct (IH H) as [-> | H']; [now left | right; now right].
    + intros [-> | H]; [now left | now right].
Qed.

Lemma insert_scored_sorted x l :
  StronglySorted by_score l -> StronglySorted by_score (insert_scored x l).
Proof.
  induction 1 as [ | z l Hs IH Hall]; simpl.
  - constructor; constructor.
  - destruct (Qle_bool (snd z) (snd x)) eqn:E.
    + constructor; [exact IH | ].
      apply Forall_forall. intros y Hy.
      destruct (insert_scored_In _ _ _ Hy) as [-> | Hin].
      * now apply Qle_bool_iff.
      * rewrite Forall_forall in Hall. now apply Hall.
    + apply Qle_bool_false in E.
      constructor; [now constructor | ].
      constructor; [exact E | ].
      rewrite Forall_forall in Hall |- *. intros y Hy.
      unfold by_score in *. eapply Qle_trans; [exact E | now apply Hall].
Qed.

Lemma rank_sorted l : StronglySorted by_score (rank l).
Proof.
  induction l as [ | x l IH]; simpl; [constructor | now apply insert_scored_sorted].
Qed.

Lemma insert_scored_length x l :
  List.length (insert_scored x l) = S (List.length l).
Proof.
  induction l as [ | z l IH]; simpl; [reflexivity | ].
  destruct (Qle_bool (snd z) (snd x)); simpl; congruence.
Qed.

Lemma rank_length l : List.length (rank l) = List.length l.
Proof.
  induction l as [ | x l IH]; simpl; [reflexivity | ].
  rewrite insert_scored_length. congruence.
Qed.

Lemma firstn_incl {A} k (l : list A) y : In y (firstn k l) -> In y l.
Proof.
  revert k. induction l as [ | x l IH]; intros [ | k]; simpl; try tauto.
  intros [-> | H]; [now left | right; eauto].
Qed.

Lemma firstn_sorted {A} (R : A -> A -> Prop) k (l : list A) :
  StronglySorted R l -> StronglySorted R (firstn k l).
Proof.
  intros H. revert k. induction H as [ | x l Hs IH Hall]; intros [ | k]; simpl;
    try constructor.
  - apply IH.
  - rewrite Forall_forall in Hall |- *. intros y Hy.
    apply Hall. eapply firstn_incl; eauto.
Qed.

Lemma map_sorted {A B} (R : A -> A -> Prop) (S : B -> B -> Prop) (f : A -> B)
  (l : list A) :
  (forall a b, R a b -> S (f a) (f b)) ->
  StronglySorted R l -> StronglySorted S (map f l).
Proof.
  intros Hf. induction 1 as [ | x l Hs IH Hall]; simpl; constructor.
  - exact IH.
  - rewrite Forall_forall in Hall |- *. intros y Hy.
    apply in_map_iff in Hy. destruct Hy as [a [<- Ha]]. auto.
Qed.

Section SearchFacts.
Context {rt : PyRuntime}.
Variable env : Env.

Lemma search_item_hit hits i h w :
  nth_error hits i = Some h ->
  search_item (result_of_hits hits)
    (map (fun h => rec_document (fst h)) hits) i w
  = (Ok (item_of_hit h), w).
Proof.
  intros Hn. unfold search_item, index, result_of_hits. unfold_monad.
  cbn [q_metadatas q_distances nth_error].
  rewrite !nth_error_map, Hn. reflexivity.
Qed.

(** The loop of [search] over the result lists of one query rebuilds the
    hits in their order. *)
Lemma for_range_hits hits n : forall start acc w,
  start + n = List.length hits ->
  for_range
    (search_item (result_of_hits hits)
       (map (fun h => rec_document (fst h)) hits)) start n acc w
  = (Ok (acc ++ map item_of_hit (skipn start hits))%list, w).
Proof.
  induction n as [ | n IH]; intros start acc w Hlen; simpl.
  - rewrite skipn_all2 by lia. simpl. now rewrite app_nil_r.
  - destruct (nth_error hits start) as [h | ] eqn:Hn.
    + unfold bind at 1. rewrite (search_item_hit _ _ _ _ Hn).
      rewrite IH by lia.
      replace (skipn start hits) with (h :: skipn (S start) hits).
      * simpl. now rewrite <- app_assoc.
      * clear - Hn. revert start Hn.
        induction hits as [ | x hits IHh]; intros [ | start] Hn;
          simpl in *; try discriminate.
        -- now inversion Hn.
        -- now apply IHh.
    + apply nth_error_None in Hn. lia.
Qed.

Lemma nearest_length records v k :
  List.length (nearest env records v k) <= Nat.min k (List.length records).
Proof.
  unfold nearest. rewrite length_firstn, rank_length, length_map. lia.
Qed.

Lemma nearest_sorted records v k :
  StronglySorted by_score (nearest env records v k).
Proof. unfold nearest. apply firstn_sorted, rank_sorted. Qed.

(** The runs of [search]. *)
Lemma search_runs query limit w :
  search env query limit w =
  match collection w with
  | [] => (Ok [], w)
  | _ :: _ =>
      let w1 := mkWorld (collection w) (pending_order w)
                  (CallEmbedding query :: calls w) in
      match embedding env (calls w) query with
      | inl e => (Raise e, w1)
      | inr v =>
          let n := Z.min limit (Z.of_nat (List.length (collection w))) in
          if (n <=? 0)%Z then
            (Raise (InvalidArgument
                      "Number of requested results cannot be negative, or zero."),
             w1)
          else
            (Ok (map item_of_hit (nearest env (collection w) v (Z.to_nat n))), w1)
      end
  end.
Proof.
  unfold search, collection_count, _get_embedding, collection_query.
  unfold_monad. unfold raise, ret.
  destruct w as [[ | r0 records] pend cs]; cbn [collection pending_order calls].
  - reflexivity.
  - cbn [List.length]. rewrite Nat2Z.inj_succ.
    replace (Z.succ (Z.of_nat (List.length records)) =? 0)%Z with false
      by (symmetry; apply Z.eqb_neq; lia).
    cbn [collection pending_order calls].
    destruct (embedding env cs query) as [e | v]; [reflexivity | ].
    cbn [collection].
    destruct (Z.min limit (Z.succ (Z.of_nat (List.length records))) <=? 0)%Z;
      [reflexivity | ].
    set (hits := nearest env (r0 :: records) v _).
    change (mkQueryResult _ _ _) with (result_of_hits hits).
    cbn [q_documents result_of_hits].
    rewrite length_map.
    change (map (fun h => rec_document (fst h)) hits)
      with (map (fun h : MemoryRecord * Q => rec_document (fst h)) hits).
    rewrite for_range_hits by lia. reflexivity.
Qed.

(** C5 (amended). [MemoryLayer.search] on an empty store returns the
    empty list and leaves the world as it was, so no embedding is
    requested, whatever the limit.  On a store with records it requests
    exactly one embedding.  When it returns, it returns at most
    [max(0, min(limit, count))] items, that is at most [min(limit, count)]
    for a limit that is not negative, and their scores ascend.  It raises
    only on a store with records, when the embedding call fails or the
    limit is not positive. *)
Theorem search_bounded_and_sorted (query : string) (limit : Z) (w : World) :
  let count := Z.of_nat (List.length (collection w)) in
  match search env query limit w with
  | (Ok items, w') =>
      (Z.of_nat (List.length items) <= Z.max 0 (Z.min limit count))%Z
      /\ StronglySorted Qle (map item_score items)
      /\ (if (count =? 0)%Z
          then items = [] /\ w' = w
          else calls w' = CallEmbedding query :: calls w)
  | (Raise e, w') =>
      (0 < count)%Z
      /\ calls w' = CallEmbedding query :: calls w
      /\ collection w' = collection w
      /\ (embedding env (calls w) query = inl e \/ (limit <= 0)%Z)
  end.
Proof.
  intros count. subst count. rewrite search_runs.
  destruct (collection w) as [ | r0 records] eqn:Hcol.
  - cbn. repeat split; try constructor. lia.
  - cbv zeta.
    destruct (embedding env (calls w) query) as [e | v] eqn:He.
    + cbn [List.length calls collection]. repeat split; try lia. now left.
    + destruct (Z.min limit (Z.of_nat (List.length (r0 :: records))) <=? 0)%Z
        eqn:Hn.
      * apply Z.leb_le in Hn. cbn [List.length calls collection] in *.
        repeat split; lia.
      * apply Z.leb_gt in Hn.
        split; [ | split].
        -- rewrite length_map.
           pose proof (nearest_length (r0 :: records) v
                         (Z.to_nat (Z.min limit
                            (Z.of_nat (List.length (r0 :: records)))))) as Hl.
           lia.
        -- rewrite map_map.
           apply map_sorted with (R := by_score);
             [intros a b H; exact H | apply nearest_sorted].
        -- replace (Z.of_nat (List.length (r0 :: records)) =? 0)%Z with false
             by (symmetry; apply Z.eqb_neq; cbn [List.length]; lia).
           reflexivity.
Qed.
End SearchFacts.

(* ================================================================== *)
(** ** The brace pattern *)


Lemma append_assoc (a b c : string) : (a ++ b) ++ c = a ++ (b ++ c).
Proof. induction a as [ | x a IH]; simpl; [reflexivity | now rewrite IH]. Qed.

Lemma from_first_open_complete pre rest :
  occurs open_brace pre = false ->
  from_first_open (pre ++ String open_brace rest) = Some (String open_brace rest).
Proof.
  induction pre as [ | c pre IH]; simpl; intros H.
  - reflexivity.
  - apply orb_false_iff in H. destruct H as [Hc Hpre].
    rewrite Hc. now apply IH.
Qed.

Lemma from_first_open_sound s t :
  from_first_open s = Some t ->
  exists pre rest,
    s = pre ++ t /\ t = String open_brace rest /\ occurs open_brace pre = false.
Proof.
  induction s as [ | c s IH]; simpl; [discriminate | ].
  destruct (Ascii.eqb c open_brace) eqn:E.
  - intros H. inversion H; subst t. apply Ascii.eqb_eq in E. subst c.
    now exists EmptyString, s.
  - intros H. destruct (IH H) as [pre [rest [Hs [Ht Ho]]]].
    exists (String c pre), rest. simpl. rewrite E, Ho.
    repeat split; [now f_equal | exact Ht].
Qed.

Lemma upto_last_close_none s :
  upto_last_close s = None <-> occurs close_brace s = false.
Proof.
  induction s as [ | c s IH]; simpl; [tauto | ].
  destruct (upto_last_close s) as [p | ].
  - split; [discriminate | ].
    intros H. apply orb_false_iff in H. destruct H as [_ H].
    apply IH in H. discriminate.
  - destruct (Ascii.eqb c close_brace); simpl.
    + split; discriminate.
    + split; intros _; [now apply IH | reflexivity].
Qed.

Lemma upto_last_close_complete mid post :
  occurs close_brace post = false ->
  upto_last_close (mid ++ String close_brace post)
  = Some (mid ++ String close_brace EmptyString).
Proof.
  intros H. induction mid as [ | c mid IH]; simpl.
  - apply upto_last_close_none in H. rewrite H. reflexivity.
  - now rewrite IH.
Qed.

Lemma upto_last_close_sound s p :
  upto_last_close s = Some p ->
  exists mid post,
    s = mid ++ String close_brace post
    /\ p = mid ++ String close_brace EmptyString
    /\ occurs close_brace post = false.
Proof.
  revert p. induction s as [ | c s IH]; simpl; intros p; [discriminate | ].
  destruct (upto_last_close s) as [p' | ] eqn:E.
  - intros H. inversion H; subst p.
    destruct (IH p' eq_refl) as [mid [post [Hs [Hp Ho]]]].
    exists (String c mid), post. simpl. subst. repeat split. exact Ho.
  - destruct (Ascii.eqb c close_brace) eqn:Ec; [ | discriminate].
    intros H. inversion H; subst p. apply Ascii.eqb_eq in Ec. subst c.
    exists EmptyString, s. repeat split. now apply upto_last_close_none.
Qed.

(** The match of the pattern is the stretch from the first opening brace to
    the last closing brace. *)
Lemma re_search_braces_complete pre mid post :
  occurs open_brace pre = false ->
  occurs close_brace post = false ->
  re_search_braces (pre ++ String open_brace (mid ++ String close_brace post))
  = Some (String open_brace (mid ++ String close_brace EmptyString)).
Proof.
  intros Hpre Hpost. unfold re_search_braces.
  rewrite from_first_open_complete by exact Hpre.
  exact (upto_last_close_complete (String open_brace mid) post Hpost).
Qed.

Lemma re_search_braces_sound text m :
  re_search_braces text = Some m ->
  exists pre mid post,
    text = pre ++ String open_brace (mid ++ String close_brace post)
    /\ m = String open_brace (mid ++ String close_brace EmptyString)
    /\ occurs open_brace pre = false
    /\ occurs close_brace post = false.
Proof.
  unfold re_search_braces.
  destruct (from_first_open text) as [t | ] eqn:Ht; [ | discriminate].
  intros Hm.
  destruct (from_first_open_sound _ _ Ht) as [pre [rest [Htext [Hrest Hpre]]]].
  destruct (upto_last_close_sound _ _ Hm) as [mid0 [post [Hs [Hp Hpost]]]].
  destruct mid0 as [ | c mid].
  - subst t. simpl in Hs. inversion Hs.
  - subst t. simpl in Hs. inversion Hs; subst c rest.
    exists pre, mid, post. subst. repeat split; assumption.
Qed.

(* ================================================================== *)
(** ** The approval state machine *)

Section AgentFacts.
Context {rt : PyRuntime}.
Variable env : Env.

Lemma get_intent_pending user_input w kv d :
  pending_order w = Some (kv :: d) ->
  get_intent env user_input w = (Ok APPROVAL_REPLY, w).
Proof.
  intros Hp. unfold get_intent, pending_truthy. unfold_monad.
  now rewrite Hp.
Qed.

Lemma get_intent_idle user_input w :
  pending_truthy w = false ->
  get_intent env user_input w
  = (Ok (intent_of_reply
           (completion env (calls w) (classification_prompt user_input))),
     with_call (CallCompletion (classification_prompt user_input)) w).
Proof.
  intros Hp. unfold get_intent, call_completion, classify, strip_content.
  unfold_monad. unfold raise, ret. rewrite Hp.
  cbn [calls collection pending_order].
  destruct (completion env (calls w) (classification_prompt user_input))
    as [e | [content | ]]; cbn [intent_of_reply]; try reflexivity.
  destruct (str_contains "STORE_FACT" (str_upper (str_strip content)));
    [reflexivity | ].
  destruct (str_contains "PROCUREMENT" (str_upper (str_strip content)));
    reflexivity.
Qed.

Lemma intent_of_reply_not_approval reply :
  intent_of_reply reply <> APPROVAL_REPLY.
Proof.
  destruct reply as [e | [content | ]]; simpl; try discriminate.
  destruct (str_contains "STORE_FACT" _); [discriminate | ].
  destruct (str_contains "PROCUREMENT" _); discriminate.
Qed.

(** [get_intent] always returns, and touches neither the pending order
    nor the store. *)
Lemma get_intent_frame user_input w :
  exists intent w1,
    get_intent env user_input w = (Ok intent, w1)
    /\ pending_order w1 = pending_order w
    /\ collection w1 = collection w
    /\ (intent = APPROVAL_REPLY <-> pending_truthy w = true).
Proof.
  destruct (pending_truthy w) eqn:Hp.
  - exists APPROVAL_REPLY, w. unfold pending_truthy in Hp.
    destruct (pending_order w) as [[ | kv d] | ] eqn:Hd; try discriminate.
    rewrite (get_intent_pending user_input w kv d Hd). tauto.
  - eexists _, _. rewrite (get_intent_idle user_input w Hp).
    split; [reflexivity | ]. repeat split; try discriminate.
    intros H. now apply intent_of_reply_not_approval in H.
Qed.

(** The runs of the agent turn. *)
Lemma agent_turn_runs user_input w :
  agent_turn env user_input w =
  match snd (runner_run env (calls w) user_input) with
  | Some e => (Raise e, with_call (CallRunner user_input) w)
  | None =>
      decide (accumulate (fst (runner_run env (calls w) user_input)))
        (with_call (CallRunner user_input) w)
  end.
Proof.
  unfold agent_turn. unfold_monad. cbn [calls collection pending_order].
  destruct (runner_run env (calls w) user_input) as [events [e | ]];
    reflexivity.
Qed.

Lemma decide_runs response_text w :
  decide response_text w =
  match extract_json response_text with
  | Some (PDict (kv :: d)) =>
      if eq_str (dict_get "status" (kv :: d)) "PAUSE_APPROVAL_NEEDED"
      then (Ok (approval_required (kv :: d) response_text),
            with_pending (Some (kv :: d)) w)
      else (Ok (order_placed (kv :: d) response_text), w)
  | Some v =>
      if truthy v then (Raise (AttributeError (type_name v) "get"), w)
      else (Ok (raw_response response_text), w)
  | None => (Ok (raw_response response_text), w)
  end.
Proof.
  unfold decide. unfold_monad.
  destruct (extract_json response_text) as [v | ]; [ | reflexivity].
  destruct v as [ | b | z | r | s | l | d]; cbn [truthy_opt truthy];
    try reflexivity.
  - destruct b; reflexivity.
  - destruct (negb (z =? 0)%Z); reflexivity.
  - destruct (negb _); reflexivity.
  - destruct (negb _); reflexivity.
  - destruct l; reflexivity.
  - destruct d as [ | kv d]; [reflexivity | ].
    destruct (eq_str _ _); reflexivity.
Qed.

(** A decision that [decide] stores is a dictionary with entries. *)
Lemma decide_pending response_text w :
  pending_order (snd (decide response_text w)) = pending_order w
  \/ exists kv d,
      pending_order (snd (decide response_text w)) = Some (kv :: d).
Proof.
  rewrite decide_runs.
  destruct (extract_json response_text) as [v | ]; [ | now left].
  destruct v as [ | b | z | r | s | l | d];
    try (destruct (truthy _); now left).
  destruct d as [ | kv d]; [now left | ].
  destruct (eq_str _ _); [right; now exists kv, d | now left].
Qed.

Lemma decide_collection response_text w :
  collection (snd (decide response_text w)) = collection w.
Proof.
  rewrite decide_runs.
  destruct (extract_json response_text) as [v | ]; [ | reflexivity].
  destruct v as [ | b | z | r | s | l | d];
    try (destruct (truthy _); reflexivity).
  destruct d as [ | kv d]; [reflexivity | ].
  destruct (eq_str _ _); reflexivity.
Qed.

(** With an intent that is a request or chat, [process_message] is the
    guarded agent turn. *)
Lemma process_message_agent user_input w intent w1 :
  get_intent env user_input w = (Ok intent, w1) ->
  intent = PROCUREMENT_REQUEST \/ intent = CHAT ->
  process_message env user_input w
  = try_except (agent_turn env user_input)
      (fun e => ret (error_response e)) w1.
Proof.
  intros Hi Hk. unfold process_message. unfold bind at 1. rewrite Hi.
  destruct Hk as [-> | ->]; reflexivity.
Qed.

Lemma handle_approval_runs user_input w :
  handle_approval user_input w =
  if existsb (String.eqb (str_lower user_input)) affirmative then
    match pending_order w with
    | Some d => (Ok (confirmed_response d), with_pending None w)
    | None => (Raise (AttributeError "NoneType" "get"), with_pending None w)
    end
  else (Ok cancelled_response, with_pending None w).
Proof.
  unfold handle_approval. unfold_monad.
  destruct (existsb _ affirmative); [ | reflexivity].
  cbn [pending_order]. destruct (pending_order w); reflexivity.
Qed.

Lemma existsb_eqb_In s (l : list string) :
  existsb (String.eqb s) l = true <-> In s l.
Proof.
  rewrite existsb_exists. split.
  - intros [x [Hin Heq]]. apply String.eqb_eq in Heq. now subst.
  - intros Hin. exists s. split; [exact Hin | apply String.eqb_refl].
Qed.

Lemma add_pending user_input metadata w :
  pending_order (snd (add env user_input metadata w)) = pending_order w.
Proof.
  pose proof (add_runs env user_input metadata w) as Hrun.
  inversion Hrun; reflexivity.
Qed.

Lemma process_message_pending_nonempty user_input w :
  pending_nonempty w -> pending_nonempty (snd (process_message env user_input w)).
Proof.
  intros Hw. unfold pending_nonempty in *.
  destruct (get_intent_frame user_input w) as [intent [w1 [Hi [Hp [Hc Ha]]]]].
  unfold process_message. unfold bind at 1. rewrite Hi.
  destruct intent.
  - rewrite handle_approval_runs.
    destruct (existsb _ affirmative); [destruct (pending_order w1) | ];
      discriminate.
  - unfold bind.
    pose proof (add_pending user_input None w1) as Hadd.
    destruct (add env user_input None w1) as [[fact | e] w2];
      cbn [snd] in *; unfold ret; cbn [snd]; congruence.
  - unfold try_except. rewrite agent_turn_runs.
    destruct (snd (runner_run env (calls w1) user_input)) as [e | ].
    + unfold ret. cbn. congruence.
    + destruct (decide_pending
                  (accumulate (fst (runner_run env (calls w1) user_input)))
                  (with_call (CallRunner user_input) w1)) as [H | [kv [d H]]];
        destruct (decide _ _) as [[r | e] w2]; cbn [snd pending_order] in *;
        unfold ret; cbn [snd]; cbn [with_call pending_order] in *; congruence.
  - unfold try_except. rewrite agent_turn_runs.
    destruct (snd (runner_run env (calls w1) user_input)) as [e | ].
    + unfold ret. cbn. congruence.
    + destruct (decide_pending
                  (accumulate (fst (runner_run env (calls w1) user_input)))
                  (with_call (CallRunner user_input) w1)) as [H | [kv [d H]]];
        destruct (decide _ _) as [[r | e] w2]; cbn [snd pending_order] in *;
        unfold ret; cbn [snd]; cbn [with_call pending_order] in *; congruence.
Qed.

Lemma reachable_pending_nonempty w : reachable env w -> pending_nonempty w.
Proof.
  induction 1 as [records | w user_input Hr IH].
  - unfold pending_nonempty. cbn. discriminate.
  - now apply process_message_pending_nonempty.
Qed.

Lemma decide_raise response_text w e w2 :
  decide response_text w = (Raise e, w2) -> w2 = w.
Proof.
  rewrite decide_runs.
  destruct (extract_json response_text) as [v | ]; [ | discriminate].
  destruct v as [ | b | z | r | s | l | d];
    try (destruct (truthy _); intros H; inversion H; reflexivity).
  destruct d as [ | kv d]; [discriminate | ].
  destruct (eq_str _ _); discriminate.
Qed.

(** C4. In a reachable state that holds a pending order, [get_intent]
    answers APPROVAL_REPLY for every input and leaves the world, with its
    trace of external calls, untouched: the language model is not
    consulted, and no other label can come out. *)
Theorem pending_order_short_circuits_intent (user_input : string)
  (w : World) (d : dict) :
  reachable env w ->
  pending_order w = Some d ->
  get_intent env user_input w = (Ok APPROVAL_REPLY, w).
Proof.
  intros Hr Hp. apply reachable_pending_nonempty in Hr.
  unfold pending_nonempty in Hr.
  destruct d as [ | kv d]; [exfalso; apply Hr; exact Hp | ].
  unfold get_intent, pending_truthy. unfold_monad. now rewrite Hp.
Qed.

(** C3. In a reachable state that holds a pending order, every input goes
    to [handle_approval].  An input whose lower-case form is one of "yes",
    "y", "approve", "ok" is answered with the confirmation, the text
    "Order Confirmed" naming the vendor of the held order; any other input
    is answered with the cancellation, the text "Order Cancelled".  The two
    answers differ, and in both cases the pending order is cleared and
    nothing else changes. *)
Theorem approval_reply_resolves_pending (user_input : string) (w : World)
  (d : dict) :
  reachable env w ->
  pending_order w = Some d ->
  let cleared := mkWorld (collection w) None (calls w) in
  let confirmation :=
    mkResponse
      ("✅ **Order Confirmed**." ++ nl ++ "Placed order with "
         ++ fmt (dict_get "selected_vendor" d) ++ ".")
      "User manually approved." in
  let cancellation := mkResponse "❌Order Cancelled." "User denied." in
  process_message env user_input w = handle_approval user_input w
  /\ (In (str_lower user_input) ["yes"; "y"; "approve"; "ok"] ->
      handle_approval user_input w = (Ok confirmation, cleared))
  /\ (~ In (str_lower user_input) ["yes"; "y"; "approve"; "ok"] ->
      handle_approval user_input w = (Ok cancellation, cleared))
  /\ pending_order (snd (process_message env user_input w)) = None
  /\ response confirmation <> response cancellation
  /\ (forall vendor,
        dict_get "selected_vendor" d = Some (PStr vendor) ->
        response confirmation
        = "✅ **Order Confirmed**." ++ nl ++ "Placed order with " ++ vendor ++ ".")
  /\ (dict_get "selected_vendor" d = None ->
      response confirmation
      = "✅ **Order Confirmed**." ++ nl ++ "Placed order with None.").
Proof.
  intros Hr Hp cleared confirmation cancellation.
  assert (Hpm : process_message env user_input w
                = handle_approval user_input w).
  { destruct d as [ | kv d'].
    - exfalso. apply (reachable_pending_nonempty w Hr). exact Hp.
    - unfold process_message. unfold bind at 1.
      now rewrite (get_intent_pending user_input w kv d' Hp). }
  split; [exact Hpm | ].
  rewrite Hpm, handle_approval_runs, Hp.
  assert (Htexts :
            response confirmation <> response cancellation
            /\ (forall vendor,
                  dict_get "selected_vendor" d = Some (PStr vendor) ->
                  response confirmation
                  = "✅ **Order Confirmed**." ++ nl ++ "Placed order with "
                      ++ vendor ++ ".")
            /\ (dict_get "selected_vendor" d = None ->
                response confirmation
                = "✅ **Order Confirmed**." ++ nl ++ "Placed order with None.")).
  { subst confirmation cancellation. cbn [response].
    split; [ | split].
    - cbn. discriminate.
    - intros vendor ->. reflexivity.
    - intros ->. reflexivity. }
  destruct (existsb (String.eqb (str_lower user_input)) affirmative) eqn:E.
  - apply existsb_eqb_In in E.
    split; [intros _; reflexivity | ].
    split; [intros Hn; exfalso; apply Hn; exact E | ].
    split; [reflexivity | exact Htexts].
  - unfold affirmative in E.
    split; [intros Hin; apply existsb_eqb_In in Hin; congruence | ].
    split; [intros _; reflexivity | ].
    split; [reflexivity | exact Htexts].
Qed.

(** C9. With no pending order, [get_intent] falls back to CHAT when the
    classification call raises, when its answer has no text, and when the
    upper-cased answer contains neither STORE_FACT nor PROCUREMENT; it
    answers STORE_FACT or PROCUREMENT_REQUEST only after a successful call
    whose answer contains the keyword. *)
Theorem classification_fails_open (user_input : string) (w : World) :
  pending_order w = None ->
  let reply := completion env (calls w) (classification_prompt user_input) in
  let w1 := with_call (CallCompletion (classification_prompt user_input)) w in
  (forall e, reply = inl e -> get_intent env user_input w = (Ok CHAT, w1))
  /\ (reply = inr None -> get_intent env user_input w = (Ok CHAT, w1))
  /\ (forall content,
        reply = inr (Some content) ->
        str_contains "STORE_FACT" (str_upper (str_strip content)) = false ->
        str_contains "PROCUREMENT" (str_upper (str_strip content)) = false ->
        get_intent env user_input w = (Ok CHAT, w1))
  /\ (forall intent w',
        get_intent env user_input w = (Ok intent, w') ->
        intent = STORE_FACT \/ intent = PROCUREMENT_REQUEST ->
        exists content,
          reply = inr (Some content)
          /\ (str_contains "STORE_FACT" (str_upper (str_strip content)) = true
              \/ str_contains "PROCUREMENT" (str_upper (str_strip content))
                 = true)).
Proof.
  intros Hp reply w1. subst reply w1.
  assert (Hidle : pending_truthy w = false)
    by (unfold pending_truthy; now rewrite Hp).
  rewrite (get_intent_idle user_input w Hidle).
  repeat split.
  - intros e ->. reflexivity.
  - intros ->. reflexivity.
  - intros content -> H1 H2. cbn [intent_of_reply]. now rewrite H1, H2.
  - intros intent w' H Hk. inversion H as [[Hi Hw]]. clear H.
    destruct (completion env (calls w) (classification_prompt user_input))
      as [e | [content | ]]; cbn [intent_of_reply] in *;
      try (destruct Hk; congruence).
    exists content. split; [reflexivity | ].
    destruct (str_contains "STORE_FACT" _); [now left | ].
    destruct (str_contains "PROCUREMENT" _); [now right | ].
    destruct Hk; congruence.
Qed.

(** C7. When the intent is a request or chat and the run of the agent
    raises, [process_message] catches the exception and returns the error
    response: the text "Error: " followed by the message of the exception,
    with that message as the reasoning.  The pending order and the store are
    what they were before the call.  That holds for an exception of the
    runner and for any other exception of the guarded block. *)
Theorem agent_failure_keeps_pending_order (user_input : string) (w : World)
  (intent : Intent) (w1 : World) :
  get_intent env user_input w = (Ok intent, w1) ->
  intent = PROCUREMENT_REQUEST \/ intent = CHAT ->
  let after :=
    mkWorld (collection w1) (pending_order w1)
      (CallRunner user_input :: calls w1) in
  (forall events e,
      runner_run env (calls w1) user_input = (events, Some e) ->
      process_message env user_input w
      = (Ok (mkResponse ("Error: " ++ exn_str e) (exn_str e)), after)
      /\ pending_order after = pending_order w
      /\ collection after = collection w)
  /\ (forall events msg,
        runner_run env (calls w1) user_input
        = (events, Some (ProviderError msg)) ->
        process_message env user_input w
        = (Ok (mkResponse ("Error: " ++ msg) msg), after))
  /\ (forall e w2,
        agent_turn env user_input w1 = (Raise e, w2) ->
        process_message env user_input w
        = (Ok (mkResponse ("Error: " ++ exn_str e) (exn_str e)), w2)
        /\ pending_order w2 = pending_order w
        /\ collection w2 = collection w).
Proof.
  intros Hi Hk after. subst after.
  rewrite (process_message_agent user_input w intent w1 Hi Hk).
  destruct (get_intent_frame user_input w) as [i [w1' [Hi' [Hp [Hc _]]]]].
  rewrite Hi in Hi'. inversion Hi'; subst i w1'. clear Hi'.
  split; [ | split].
  - intros events e Hrun. unfold try_except.
    rewrite agent_turn_runs, Hrun. cbn. now repeat split.
  - intros events msg Hrun. unfold try_except.
    rewrite agent_turn_runs, Hrun. reflexivity.
  - intros e w2 Hturn. unfold try_except. rewrite Hturn.
    split; [reflexivity | ].
    rewrite agent_turn_runs in Hturn.
    destruct (snd (runner_run env (calls w1) user_input)) as [e' | ].
    + inversion Hturn; subst. cbn. now split.
    + apply decide_raise in Hturn. subst w2. cbn. now split.
Qed.

(** C2. From the idle state, when the agent's answer yields a decision
    block: with status PAUSE_APPROVAL_NEEDED [process_message] stores the
    block as the pending order and returns the summary "Approval Required"
    with the reason and the cost of the block, ending with the question
    "Proceed? (y/n)"; with status ORDER_PLACED it returns the summary
    "Order Placed" with the vendor, the cost and the reason, and the pending
    order stays empty.  In both the reasoning is the agent's text under the
    heading "ADK Agent Response:".  A field that is a text is rendered as
    itself, an integer in decimal, a missing field as None. *)
Theorem decision_block_drives_state (user_input : string) (w : World)
  (intent : Intent) (w1 : World) (events : list Event) (d : dict) :
  pending_order w = None ->
  get_intent env user_input w = (Ok intent, w1) ->
  intent = PROCUREMENT_REQUEST \/ intent = CHAT ->
  runner_run env (calls w1) user_input = (events, None) ->
  extract_json (accumulate events) = Some (PDict d) ->
  let text := accumulate events in
  let log := "ADK Agent Response:" ++ nl ++ text in
  let trace := CallRunner user_input :: calls w1 in
  (dict_get "status" d = Some (PStr "PAUSE_APPROVAL_NEEDED") ->
     process_message env user_input w
     = (Ok (mkResponse
              ("⚠️ **Approval Required**" ++ nl
                 ++ "Reason: " ++ fmt (dict_get "reasoning" d) ++ nl
                 ++ "Cost: " ++ fmt (dict_get "total_cost" d) ++ nl
                 ++ "Proceed? (y/n)")
              log),
        mkWorld (collection w) (Some d) trace))
  /\ (dict_get "status" d = Some (PStr "ORDER_PLACED") ->
      process_message env user_input w
      = (Ok (mkResponse
               ("✅ **Order Placed**" ++ nl
                  ++ "Vendor: " ++ fmt (dict_get "selected_vendor" d) ++ nl
                  ++ "Cost: " ++ fmt (dict_get "total_cost" d) ++ nl
                  ++ "Reason: " ++ fmt (dict_get "reasoning" d))
               log),
         mkWorld (collection w) None trace))
  /\ fmt None = "None"
  /\ (forall s, fmt (Some (PStr s)) = s)
  /\ (forall z, fmt (Some (PInt z)) = NilZero.string_of_int (Z.to_int z)).
Proof.
  intros Hp Hi Hk Hrun Hjson text log trace. subst text log trace.
  rewrite (process_message_agent user_input w intent w1 Hi Hk).
  destruct (get_intent_frame user_input w) as [i [w1' [Hi' [Hp1 [Hc1 _]]]]].
  rewrite Hi in Hi'. inversion Hi'; subst i w1'. clear Hi'.
  unfold try_except. rewrite agent_turn_runs, Hrun. cbn [fst snd].
  rewrite decide_runs, Hjson. rewrite <- Hc1.
  split; [ | split; [ | repeat split]]; intros Hs.
  - destruct d as [ | kv d]; [discriminate | ].
    unfold eq_str. rewrite Hs, String.eqb_refl. reflexivity.
  - destruct d as [ | kv d]; [discriminate | ].
    unfold eq_str. rewrite Hs.
    replace (String.eqb "ORDER_PLACED" "PAUSE_APPROVAL_NEEDED") with false
      by reflexivity.
    unfold with_call, order_placed, agent_log. rewrite Hp1, Hp. reflexivity.
Qed.

(** C10 (amended). The status of a decision block is not validated: from
    the idle state, when the agent's answer yields an object whose status is
    not the text PAUSE_APPROVAL_NEEDED (absent, unknown, or not a text at
    all), [process_message] leaves no pending order and returns, for an
    object with at least one entry, the summary "Order Placed", in which a
    field that the object lacks is rendered as the word None, and for the
    empty object the raw text of the answer. *)
Theorem unvalidated_status_places_order (user_input : string) (w : World)
  (intent : Intent) (w1 : World) (events : list Event) (d : dict) :
  pending_order w = None ->
  get_intent env user_input w = (Ok intent, w1) ->
  intent = PROCUREMENT_REQUEST \/ intent = CHAT ->
  runner_run env (calls w1) user_input = (events, None) ->
  extract_json (accumulate events) = Some (PDict d) ->
  eq_str (dict_get "status" d) "PAUSE_APPROVAL_NEEDED" = false ->
  let text := accumulate events in
  let log := "ADK Agent Response:" ++ nl ++ text in
  let after := mkWorld (collection w) None (CallRunner user_input :: calls w1) in
  process_message env user_input w
  = (Ok (match d with
         | [] => mkResponse text log
         | _ :: _ =>
             mkResponse
               ("✅ **Order Placed**" ++ nl
                  ++ "Vendor: " ++ fmt (dict_get "selected_vendor" d) ++ nl
                  ++ "Cost: " ++ fmt (dict_get "total_cost" d) ++ nl
                  ++ "Reason: " ++ fmt (dict_get "reasoning" d))
               log
         end), after)
  /\ pending_order after = None
  /\ fmt None = "None"
  /\ (forall s, fmt (Some (PStr s)) = s)
  /\ (d <> [] ->
      dict_get "selected_vendor" d = None ->
      dict_get "total_cost" d = None ->
      dict_get "reasoning" d = None ->
      fst (process_message env user_input w)
      = Ok (mkResponse
              ("✅ **Order Placed**" ++ nl ++ "Vendor: None" ++ nl
                 ++ "Cost: None" ++ nl ++ "Reason: None")
              log)).
Proof.
  intros Hp Hi Hk Hrun Hjson Hs text log after. subst text log after.
  rewrite (process_message_agent user_input w intent w1 Hi Hk).
  destruct (get_intent_frame user_input w) as [i [w1' [Hi' [Hp1 [Hc1 _]]]]].
  rewrite Hi in Hi'. inversion Hi'; subst i w1'. clear Hi'.
  unfold try_except. rewrite agent_turn_runs, Hrun. cbn [fst snd].
  rewrite decide_runs, Hjson. rewrite <- Hc1.
  destruct d as [ | kv d].
  - cbn [truthy]. unfold with_call, raw_response, agent_log.
    rewrite Hp1, Hp.
    split; [reflexivity | repeat split]. intros Hne. now contradiction Hne.
  - rewrite Hs. unfold with_call, order_placed, agent_log. rewrite Hp1, Hp.
    split; [reflexivity | repeat split].
    intros _ H1 H2 H3. cbn [fst]. rewrite H1, H2, H3. reflexivity.
Qed.

(** C6 (amended). [extract_json] decodes the stretch of the text from its
    first opening brace to its last closing brace as one JSON document:
    prose and fence markers before and after that stretch are ignored, and
    nothing is extracted when the text has no such stretch or the stretch
    does not decode.  When nothing is extracted, or the decoded value is
    empty, [process_message] returns the text of the answer itself as the
    response, with the same text under the heading "ADK Agent Response:" as
    the reasoning, and the pending order is unchanged. *)
Theorem extract_json_first_to_last_brace :
  (forall pre mid post,
      occurs open_brace pre = false ->
      occurs close_brace post = false ->
      extract_json (pre ++ String open_brace (mid ++ String close_brace post))
      = json_loads (String open_brace (mid ++ String close_brace EmptyString)))
  /\ (forall text v,
        extract_json text = Some v ->
        exists pre mid post,
          text = pre ++ String open_brace (mid ++ String close_brace post)
          /\ occurs open_brace pre = false
          /\ occurs close_brace post = false
          /\ json_loads (String open_brace (mid ++ String close_brace EmptyString))
             = Some v)
  /\ (forall user_input w intent w1 events,
        get_intent env user_input w = (Ok intent, w1) ->
        intent = PROCUREMENT_REQUEST \/ intent = CHAT ->
        runner_run env (calls w1) user_input = (events, None) ->
        truthy_opt (extract_json (accumulate events)) = false ->
        process_message env user_input w
        = (Ok (mkResponse (accumulate events)
                 ("ADK Agent Response:" ++ nl ++ accumulate events)),
           mkWorld (collection w) (pending_order w)
             (CallRunner user_input :: calls w1))).
Proof.
  split; [ | split].
  - intros pre mid post Hpre Hpost. unfold extract_json.
    now rewrite re_search_braces_complete.
  - intros text v. unfold extract_json.
    destruct (re_search_braces text) as [m | ] eqn:Hm; [ | discriminate].
    intros Hv.
    destruct (re_search_braces_sound _ _ Hm)
      as [pre [mid [post [Ht [Hmm [Hpre Hpost]]]]]].
    exists pre, mid, post. subst m. repeat split; assumption.
  - intros user_input w intent w1 events Hi Hk Hrun Hfalsy.
    rewrite (process_message_agent user_input w intent w1 Hi Hk).
    destruct (get_intent_frame user_input w) as [i [w1' [Hi' [Hp1 [Hc1 _]]]]].
    rewrite Hi in Hi'. inversion Hi'; subst i w1'. clear Hi'.
    unfold try_except. rewrite agent_turn_runs, Hrun. cbn [fst snd].
    rewrite decide_runs. rewrite <- Hc1, <- Hp1.
    destruct (extract_json (accumulate events)) as [v | ]; [ | reflexivity].
    cbn [truthy_opt] in Hfalsy.
    destruct v as [ | b | z | r | s | l | dd]; try rewrite Hfalsy;
      try reflexivity.
    destruct dd; [ | discriminate].
    reflexivity.
Qed.
End AgentFacts.

(* ================================================================== *)
(** ** The claims on concrete conversations *)

Section Conversations.
Import Scenario.

(** The scenario of the specification: a request above the remembered
    limit is held for approval, and "yes" confirms it. *)
Example pause_then_yes :
  fst (process_message env_pause "Order 200 bags of cement" idle)
  = Ok (approval_required pause_block pause_answer)
  /\ pending_order pending = Some pause_block
  /\ process_message env_pause "yes" pending
     = (Ok (confirmed_response pause_block), with_pending None pending).
Proof. repeat split; vm_compute; reflexivity. Qed.

Example pause_then_no :
  process_message env_pause "no" pending
  = (Ok cancelled_response, with_pending None pending).
Proof. vm_compute. reflexivity. Qed.

Example learn_then_search :
  fst (process_message env_learn "Limit is 50k for cement" idle)
  = Ok (learned_response "Cement purchase limit is 50,000")
  /\ fst (search env_learn "rules for cement" 3
            (snd (process_message env_learn "Limit is 50k for cement" idle)))
     = Ok [mkItem "Cement purchase limit is 50,000"
             [("original_input", PStr "Limit is 50k for cement");
              ("timestamp", PStr "2024-01-01T12:00:00")] 0%Q].
Proof. split; vm_compute; reflexivity. Qed.

Lemma pending_reachable : reachable env_pause pending.
Proof. unfold pending. apply reachable_step, reachable_init. Defined.

Lemma pending_order_short_circuits_intent_witness :
  pending_order pending = Some pause_block
  /\ get_intent env_pause "order cement" pending = (Ok APPROVAL_REPLY, pending).
Proof.
  split.
  - vm_compute. reflexivity.
  - apply (pending_order_short_circuits_intent env_pause "order cement"
             pending pause_block).
    + exact pending_reachable.
    + vm_compute. reflexivity.
Defined.

Lemma approval_reply_resolves_pending_witness :
  In (str_lower "YES") ["yes"; "y"; "approve"; "ok"]
  /\ handle_approval "YES" pending
     = (Ok (mkResponse
              ("✅ **Order Confirmed**." ++ nl ++ "Placed order with BuildMart.")
              "User manually approved."),
        mkWorld (collection pending) None (calls pending))
  /\ pending_order (snd (process_message env_pause "YES" pending)) = None.
Proof.
  assert (Hin : In (str_lower "YES") ["yes"; "y"; "approve"; "ok"])
    by (vm_compute; tauto).
  assert (Hp : pending_order pending = Some pause_block)
    by (vm_compute; reflexivity).
  pose proof (approval_reply_resolves_pending env_pause "YES" pending
                pause_block pending_reachable Hp) as H.
  cbv zeta in H. destruct H as [_ [Hyes [_ [Hclear _]]]].
  split; [exact Hin | ]. split; [exact (Hyes Hin) | exact Hclear].
Defined.

Lemma classification_fails_open_witness :
  pending_order idle = None
  /\ get_intent env_down "Order 200 bags of cement" idle
     = (Ok CHAT,
        with_call
          (CallCompletion (classification_prompt "Order 200 bags of cement"))
          idle).
Proof.
  split; [reflexivity | ].
  exact (proj1 (classification_fails_open env_down
                  "Order 200 bags of cement" idle eq_refl)
           (ProviderError "rate limit exceeded") eq_refl).
Defined.

Lemma agent_failure_keeps_pending_order_witness :
  process_message env_runner_down "Order 200 bags of cement" idle
  = (Ok (mkResponse "Error: connection reset" "connection reset"),
     mkWorld []  None
       [CallRunner "Order 200 bags of cement";
        CallCompletion (classification_prompt "Order 200 bags of cement")]).
Proof.
  assert (Hi : get_intent env_runner_down "Order 200 bags of cement" idle
               = (Ok PROCUREMENT_REQUEST,
                  snd (get_intent env_runner_down
                         "Order 200 bags of cement" idle)))
    by (vm_compute; reflexivity).
  pose proof (agent_failure_keeps_pending_order env_runner_down
                "Order 200 bags of cement" idle PROCUREMENT_REQUEST _
                Hi (or_introl eq_refl)) as H.
  cbv zeta in H. destruct H as [_ [Hprov _]].
  exact (Hprov [EventText (Some "Let me check")] "connection reset" eq_refl).
Defined.

Lemma decision_block_drives_state_witness :
  process_message env_pause "Order 200 bags of cement" idle
  = (Ok (mkResponse
           ("⚠️ **Approval Required**" ++ nl
              ++ "Reason: Total cost exceeds the limit" ++ nl
              ++ "Cost: 60000" ++ nl ++ "Proceed? (y/n)")
           ("ADK Agent Response:" ++ nl ++ pause_answer)),
     mkWorld [] (Some pause_block)
       [CallRunner "Order 200 bags of cement";
        CallCompletion (classification_prompt "Order 200 bags of cement")])
  /\ process_message env_placed "Order 100 bags of cement" idle
     = (Ok (mkResponse
              ("✅ **Order Placed**" ++ nl ++ "Vendor: BuildMart" ++ nl
                 ++ "Cost: 30000" ++ nl ++ "Reason: Cheapest vendor")
              ("ADK Agent Response:" ++ nl ++ placed_answer)),
        mkWorld [] None
          [CallRunner "Order 100 bags of cement";
           CallCompletion (classification_prompt "Order 100 bags of cement")]).
Proof.
  split.
  - assert (Hi : get_intent env_pause "Order 200 bags of cement" idle
                 = (Ok PROCUREMENT_REQUEST,
                    snd (get_intent env_pause "Order 200 bags of cement" idle)))
      by (vm_compute; reflexivity).
    assert (Hjson : extract_json (accumulate (fst (says pause_answer)))
                    = Some (PDict pause_block))
      by (vm_compute; reflexivity).
    pose proof (decision_block_drives_state env_pause
                  "Order 200 bags of cement" idle PROCUREMENT_REQUEST _
                  (fst (says pause_answer)) pause_block
                  eq_refl Hi (or_introl eq_refl) eq_refl Hjson) as H.
    cbv zeta in H. destruct H as [Hpause _].
    exact (Hpause eq_refl).
  - assert (Hi : get_intent env_placed "Order 100 bags of cement" idle
                 = (Ok PROCUREMENT_REQUEST,
                    snd (get_intent env_placed "Order 100 bags of cement" idle)))
      by (vm_compute; reflexivity).
    assert (Hjson : extract_json (accumulate (fst (says placed_answer)))
                    = Some (PDict placed_block))
      by (vm_compute; reflexivity).
    pose proof (decision_block_drives_state env_placed
                  "Order 100 bags of cement" idle PROCUREMENT_REQUEST _
                  (fst (says placed_answer)) placed_block
                  eq_refl Hi (or_introl eq_refl) eq_refl Hjson) as H.
    cbv zeta in H. destruct H as [_ [Hplaced _]].
    exact (Hplaced eq_refl).
Defined.

Lemma unvalidated_status_places_order_witness :
  process_message env_odd "hello" idle
  = (Ok (mkResponse
           ("✅ **Order Placed**" ++ nl ++ "Vendor: None" ++ nl
              ++ "Cost: None" ++ nl ++ "Reason: None")
           ("ADK Agent Response:" ++ nl ++ odd_answer)),
     mkWorld [] None
       [CallRunner "hello"; CallCompletion (classification_prompt "hello")])
  /\ process_message env_empty_object "hello" idle
     = (Ok (mkResponse "{}" ("ADK Agent Response:" ++ nl ++ "{}")),
        mkWorld [] None
          [CallRunner "hello"; CallCompletion (classification_prompt "hello")]).
Proof.
  split.
  - assert (Hi : get_intent env_odd "hello" idle
                 = (Ok CHAT, snd (get_intent env_odd "hello" idle)))
      by (vm_compute; reflexivity).
    assert (Hjson : extract_json (accumulate (fst (says odd_answer)))
                    = Some (PDict [("status", PStr "SHIPPED")]))
      by (vm_compute; reflexivity).
    pose proof (unvalidated_status_places_order env_odd "hello" idle CHAT _
                  (fst (says odd_answer)) [("status", PStr "SHIPPED")]
                  eq_refl Hi (or_intror eq_refl) eq_refl Hjson eq_refl) as H.
    cbv zeta in H. destruct H as [Hrun _]. exact Hrun.
  - assert (Hi : get_intent env_empty_object "hello" idle
                 = (Ok CHAT, snd (get_intent env_empty_object "hello" idle)))
      by (vm_compute; reflexivity).
    assert (Hjson : extract_json (accumulate (fst (says "{}")))
                    = Some (PDict []))
      by (vm_compute; reflexivity).
    pose proof (unvalidated_status_places_order env_empty_object "hello" idle
                  CHAT _ (fst (says "{}")) []
                  eq_refl Hi (or_intror eq_refl) eq_refl Hjson eq_refl) as H.
    cbv zeta in H. destruct H as [Hrun _]. exact Hrun.
Defined.

Lemma extract_json_first_to_last_brace_witness :
  extract_json ("Here you go: ```json" ++ nl ++ "{}" ++ nl ++ "```")
  = json_loads "{}"
  /\ process_message Shop.env_prose "hello" idle
     = (Ok (mkResponse "Let me check"
              ("ADK Agent Response:" ++ nl ++ "Let me check")),
        mkWorld [] None
          [CallRunner "hello"; CallCompletion (classification_prompt "hello")]).
Proof.
  destruct (extract_json_first_to_last_brace Shop.env_prose)
    as [Hspan [_ Hraw]].
  split.
  - exact (Hspan ("Here you go: ```json" ++ nl) EmptyString (nl ++ "```")
             eq_refl eq_refl).
  - assert (Hi : get_intent Shop.env_prose "hello" idle
                 = (Ok CHAT, snd (get_intent Shop.env_prose "hello" idle)))
      by (vm_compute; reflexivity).
    exact (Hraw "hello" idle CHAT _ [EventText (Some "Let me check")]
             Hi (or_intror eq_refl) eq_refl eq_refl).
Defined.

(** C1, as stated, fails when the console is broken: the record is
    inserted, then the [print] that follows raises, so [add] raises with
    one record stored, not zero. *)
Lemma add_raises_after_storing :
  fst (add Shop.env_console_down "Limit is 50k for cement" None idle)
  = Raise (OutputError "I/O operation on closed file")
  /\ map rec_document
       (collection
          (snd (add Shop.env_console_down "Limit is 50k for cement" None idle)))
     = ["Cement purchase limit is 50,000"]
  /\ collection (snd (add Shop.env_console_down "Limit is 50k for cement"
                        None idle))
     <> collection idle.
Proof.
  split; [vm_compute; reflexivity | split; [vm_compute; reflexivity | ]].
  vm_compute. discriminate.
Qed.

(** C5, as stated, fails on an empty store with a negative limit: the
    guard on the count answers with the empty list before the limit is
    looked at, and zero items are more than [min(-1, 0)]. *)
Lemma search_negative_limit_exceeds_bound :
  search env_learn "rules for Mumbai site" (-1) idle = (Ok [], idle)
  /\ ~ (Z.of_nat (List.length (@nil MemoryItem))
        <= Z.min (-1) (Z.of_nat (List.length (collection idle))))%Z.
Proof. split; [reflexivity | vm_compute; intros H; now apply H]. Qed.

(** C6, as stated, fails on an answer with two objects: the last balanced
    region that decodes as an object is the decision, but the pattern
    takes everything from the first opening brace to the last closing
    brace, which does not decode, so nothing is extracted and the order
    that needed approval is not held. *)
Lemma extract_json_misses_last_object :
  spec_last_decision_block two_objects_answer
  = Some [("status", PStr "PAUSE_APPROVAL_NEEDED")]
  /\ extract_json two_objects_answer = None
  /\ extract_json two_objects_answer
     <> option_map PDict (spec_last_decision_block two_objects_answer)
  /\ fst (process_message env_two_objects "Order 200 bags of cement" idle)
     = Ok (mkResponse two_objects_answer
             ("ADK Agent Response:" ++ nl ++ two_objects_answer))
  /\ pending_order
       (snd (process_message env_two_objects "Order 200 bags of cement" idle))
     = None.
Proof.
  repeat split; try (vm_compute; reflexivity).
  vm_compute. discriminate.
Qed.

(** C10, as stated, fails twice: an extracted object without entries is
    answered with the raw text, not with the Order-Placed summary; and a
    field that the object lacks is rendered as the word None, not as the
    empty text. *)
Lemma order_placed_summary_counterexample :
  (extract_json "{}" = Some (PDict [])
   /\ fst (process_message env_empty_object "hello" idle)
      = Ok (mkResponse "{}" ("ADK Agent Response:" ++ nl ++ "{}"))
   /\ mkResponse "{}" ("ADK Agent Response:" ++ nl ++ "{}")
      <> spec_order_placed [] "{}")
  /\ (extract_json odd_answer = Some (PDict [("status", PStr "SHIPPED")])
      /\ fst (process_message env_odd "hello" idle)
         = Ok (mkResponse
                 ("✅ **Order Placed**" ++ nl ++ "Vendor: None" ++ nl
                    ++ "Cost: None" ++ nl ++ "Reason: None")
                 ("ADK Agent Response:" ++ nl ++ odd_answer))
      /\ response (spec_order_placed [("status", PStr "SHIPPED")] odd_answer)
         = "✅ **Order Placed**" ++ nl ++ "Vendor: " ++ nl
             ++ "Cost: " ++ nl ++ "Reason: ").
Proof.
  repeat split; try (vm_compute; reflexivity); vm_compute; discriminate.
Qed.

(** C8, on a concrete call: whatever the wall clock says when the fact is
    learned, the record is stamped 2024-01-01T12:00:00. *)
Lemma add_timestamp_example :
  map (fun r => dict_get "timestamp" (rec_metadata r))
    (collection (snd (add env_learn "Limit is 50k for cement" None idle)))
  = [Some (PStr "2024-01-01T12:00:00")].
Proof. vm_compute. reflexivity. Qed.
End Conversations.

(* ================================================================== *)
(** ** More of the memory layer *)

Lemma skipn_nth_error {A} (l : list A) : forall i x,
  nth_error l i = Some x -> skipn i l = x :: skipn (S i) l.
Proof.
  induction l as [ | y l IH]; intros [ | i] x H; simpl in *; try discriminate.
  - now inversion H.
  - now apply IH.
Qed.

Lemma insert_scored_In_inv x l y :
  y = x \/ In y l -> In y (insert_scored x l).
Proof.
  induction l as [ | z l IH]; simpl.
  - intros [-> | []]. now left.
  - destruct (Qle_bool (snd z) (snd x)); simpl.
    + intros [-> | [-> | H]]; [right; apply IH; now left | now left
                               | right; apply IH; now right].
    + intros [-> | H]; [now left | now right].
Qed.

Lemma rank_In l y : In y (rank l) <-> In y l.
Proof.
  induction l as [ | x l IH]; simpl; [tauto | ].
  split.
  - intros H. apply insert_scored_In in H. destruct H as [-> | H];
      [now left | right; now apply IH].
  - intros [-> | H]; apply insert_scored_In_inv; [now left | right; now apply IH].
Qed.

Section MemoryLayerMore.
Context {rt : PyRuntime}.
Variable env : Env.

Lemma for_range_get_all records n : forall start acc w,
  start + n = List.length records ->
  for_range
    (get_all_item (mkGetResult (map rec_document records)
                     (map rec_metadata records))) start n acc w
  = (Ok (acc ++ map memory_of (skipn start records))%list, w).
Proof.
  induction n as [ | n IH]; intros start acc w Hlen; simpl.
  - rewrite skipn_all2 by lia. simpl. now rewrite app_nil_r.
  - destruct (nth_error records start) as [r | ] eqn:Hn.
    + unfold bind at 1. unfold get_all_item, index. unfold_monad.
      cbn [g_documents g_metadatas].
      rewrite !nth_error_map, Hn. cbn.
      rewrite IH by lia. rewrite (skipn_nth_error _ _ _ Hn).
      simpl. now rewrite <- app_assoc.
    + apply nth_error_None in Hn. lia.
Qed.

Lemma get_all_runs w :
  get_all w = (Ok (map memory_of (collection w)), w).
Proof.
  unfold get_all, collection_count, collection_get. unfold_monad.
  destruct w as [[ | r0 records] pend cs]; cbn [collection]; [reflexivity | ].
  cbn [List.length]. rewrite Nat2Z.inj_succ.
  replace (Z.succ (Z.of_nat (List.length records)) =? 0)%Z with false
    by (symmetry; apply Z.eqb_neq; lia).
  cbn [g_documents collection].
  change (map rec_document (r0 :: records))
    with (rec_document r0 :: map rec_document records) at 1.
  cbv beta iota.
  rewrite for_range_get_all.
  - reflexivity.
  - rewrite length_map. reflexivity.
Qed.

(** X1. [get_all] never raises and changes nothing: it returns one entry
    per stored record, in the order of the store, each with the document
    and the metadata of its record; on an empty store that is the empty
    list. *)
Theorem get_all_lists_every_record (w : World) :
  exists memories,
    get_all w = (Ok memories, w)
    /\ List.length memories = List.length (collection w)
    /\ (forall i r,
          nth_error (collection w) i = Some r ->
          nth_error memories i
          = Some (mkMemory (rec_document r) (rec_metadata r)))
    /\ (collection w = [] -> memories = []).
Proof.
  exists (map memory_of (collection w)).
  split; [apply get_all_runs | ].
  split; [apply length_map | ].
  split.
  - intros i r Hn. rewrite nth_error_map, Hn. reflexivity.
  - intros ->. reflexivity.
Qed.

(** X2. What [get_all] shows after [add], whatever the order in which the
    store lists its records: when [add] returns, the list holds the entries
    from before the call and one more, the extracted fact with the metadata
    built for it; when [add] raises, the list holds the entries from before
    the call and no other, except when the [print] after the insert was
    what failed, in which case the new entry is there. *)
Theorem get_all_after_add (user_input : string) (metadata : option dict)
  (w : World) :
  let w' := snd (add env user_input metadata w) in
  exists before after,
    get_all w = (Ok before, w)
    /\ get_all w' = (Ok after, w')
    /\ match fst (add env user_input metadata w) with
       | Ok fact =>
           Permutation
             (mkMemory fact (build_meta user_input metadata) :: before) after
       | Raise e =>
           Permutation before after
           \/ exists fact,
               Permutation
                 (mkMemory fact (build_meta user_input metadata) :: before)
                 after
               /\ print_fault env (calls w') ("Stored memory: " ++ fact) = Some e
       end.
Proof.
  intros w'. subst w'.
  exists (map memory_of (collection w)),
    (map memory_of (collection (snd (add env user_input metadata w)))).
  split; [apply get_all_runs | split; [apply get_all_runs | ]].
  pose proof (add_runs env user_input metadata w) as Hrun.
  inversion Hrun as [e Hc Hr Hw | Hc Hr Hw | content e Hc He Hr Hw
                    | content vector e Hc He Hi Hr Hw
                    | content vector e Hc He Hi Hp Hr Hw
                    | content vector Hc He Hi Hp Hr Hw];
    cbn [collection]; try (left; apply Permutation_refl).
  - right. exists (str_strip content). split; [ | exact Hp].
    rewrite map_app. apply Permutation_cons_append.
  - rewrite map_app. apply Permutation_cons_append.
Qed.

(** X3. The external calls of [add]: the extraction prompt always goes out
    first; the embedding provider is asked only after the extraction
    answered with a text, and then for the stripped fact, not for the user
    input; an identifier is drawn only after the embedding answered.  The
    pending order is never touched. *)
Theorem add_calls_in_order (user_input : string) (metadata : option dict)
  (w : World) :
  let w' := snd (add env user_input metadata w) in
  let prompt := extraction_prompt user_input in
  pending_order w' = pending_order w
  /\ match completion env (calls w) prompt with
     | inr (Some content) =>
         match embedding env (CallCompletion prompt :: calls w)
                 (str_strip content) with
         | inr _ =>
             calls w' = CallUuid4 :: CallEmbedding (str_strip content)
                          :: CallCompletion prompt :: calls w
         | inl _ =>
             calls w' = CallEmbedding (str_strip content)
                          :: CallCompletion prompt :: calls w
         end
     | _ => calls w' = CallCompletion prompt :: calls w
     end.
Proof.
  intros w' prompt. subst w' prompt.
  pose proof (add_runs env user_input metadata w) as Hrun.
  inversion Hrun as [e Hc Hr Hw | Hc Hr Hw | content e Hc He Hr Hw
                    | content vector e Hc He Hi Hr Hw
                    | content vector e Hc He Hi Hp Hr Hw
                    | content vector Hc He Hi Hp Hr Hw];
    rewrite Hc; try rewrite He; split; reflexivity.
Qed.

(** X4. [search] only reads: whether it returns or raises, the records of
    the store and the pending order are what they were, and at most one
    call, an embedding of the query, has been made. *)
Theorem search_reads_only (query : string) (limit : Z) (w : World) :
  let w' := snd (search env query limit w) in
  collection w' = collection w
  /\ pending_order w' = pending_order w
  /\ (calls w' = calls w \/ calls w' = CallEmbedding query :: calls w).
Proof.
  intros w'. subst w'. rewrite search_runs.
  destruct (collection w) as [ | r0 records] eqn:Hcol.
  - cbn. rewrite Hcol. repeat split. now left.
  - cbv zeta. destruct (embedding env (calls w) query) as [e | v].
    + cbn. repeat split. now right.
    + destruct (Z.min limit (Z.of_nat (List.length (r0 :: records))) <=? 0)%Z;
        cbn; repeat split; now right.
Qed.

(** X5. Where the items of [search] come from: when [search] returns on
    a store with records, the limit was positive, the embedding call had
    answered, and every item is the document and the metadata of a stored
    record, scored by the store's distance between that record's vector and
    the vector of the query. *)
Theorem search_returns_stored_records (query : string) (limit : Z) (w w' : World)
  (items : list MemoryItem) :
  search env query limit w = (Ok items, w') ->
  collection w <> [] ->
  exists v,
    embedding env (calls w) query = inr v
    /\ (0 < limit)%Z
    /\ (forall item, In item items ->
          exists r, In r (collection w)
                    /\ item = mkItem (rec_document r) (rec_metadata r)
                                (distance env (rec_embedding r) v)).
Proof.
  intros Hsearch Hne. rewrite search_runs in Hsearch.
  destruct (collection w) as [ | r0 records] eqn:Hcol; [congruence | ].
  cbv zeta in Hsearch.
  destruct (embedding env (calls w) query) as [e | v]; [discriminate | ].
  destruct (Z.min limit (Z.of_nat (List.length (r0 :: records))) <=? 0)%Z
    eqn:Hn; [discriminate | ].
  apply Z.leb_gt in Hn. inversion Hsearch as [[Hitems Hw]].
  exists v. split; [reflexivity | split; [lia | ]].
  intros item Hin. apply in_map_iff in Hin.
  destruct Hin as [h [<- Hh]]. unfold nearest in Hh.
  apply firstn_incl in Hh. apply (proj1 (rank_In _ _)) in Hh.
  apply in_map_iff in Hh. destruct Hh as [r [<- Hr]].
  exists r. split; [exact Hr | reflexivity].
Qed.

Lemma add_ok user_input metadata w fact w1 :
  add env user_input metadata w = (Ok fact, w1) ->
  exists vector,
    collection w1
    = (collection w ++ [new_record env w user_input metadata fact vector])%list
    /\ pending_order w1 = pending_order w.
Proof.
  intros Hadd.
  pose proof (add_runs env user_input metadata w) as Hrun.
  rewrite Hadd in Hrun. cbn [fst snd] in Hrun.
  inversion Hrun as [ | | | | | content vector Hc He Hi Hp Hr Hw].
  exists vector. split; reflexivity.
Qed.

(** X6. Learning and looking up: after a successful [add] the store has
    one record more, so a [search] never takes the empty-store shortcut and
    always asks for an embedding of the query; and whenever the search
    returns as many items as the store has records, the new fact is among
    the facts returned. *)
Theorem stored_fact_is_found (user_input : string) (metadata : option dict)
  (w w1 : World) (fact query : string) (limit : Z) :
  add env user_input metadata w = (Ok fact, w1) ->
  List.length (collection w1) = S (List.length (collection w))
  /\ calls (snd (search env query limit w1)) = CallEmbedding query :: calls w1
  /\ (forall items w2,
        search env query limit w1 = (Ok items, w2) ->
        List.length items = List.length (collection w1) ->
        In fact (map item_fact items)).
Proof.
  intros Hadd.
  destruct (add_ok _ _ _ _ _ Hadd) as [vector [Hcol _]].
  set (rec := new_record env w user_input metadata fact vector) in *.
  assert (Hlen : List.length (collection w1) = S (List.length (collection w)))
    by (rewrite Hcol, length_app; cbn; lia).
  split; [exact Hlen | ].
  rewrite search_runs.
  destruct (collection w1) as [ | r0 records] eqn:Hcol1;
    [cbn in Hlen; discriminate | ].
  cbv zeta.
  destruct (embedding env (calls w1) query) as [e | v]; [split; [reflexivity | discriminate] | ].
  destruct (Z.min limit (Z.of_nat (List.length (r0 :: records))) <=? 0)%Z;
    [split; [reflexivity | discriminate] | ].
  split; [reflexivity | ].
  intros items w2 Hs Hall. injection Hs as Hitems Hw.
  rewrite <- Hitems in Hall |- *. rewrite length_map in Hall.
  unfold nearest in *.
  set (ranked := rank (map (fun r => (r, distance env (rec_embedding r) v))
                         (r0 :: records))) in *.
  assert (Hrl : List.length ranked = List.length (r0 :: records))
    by (subst ranked; now rewrite rank_length, length_map).
  rewrite length_firstn in Hall.
  rewrite firstn_all2 by lia.
  rewrite map_map. apply in_map_iff.
  exists (rec, distance env (rec_embedding rec) v). split; [reflexivity | ].
  subst ranked. apply (proj2 (rank_In _ _)). apply in_map_iff.
  exists rec. split; [reflexivity | ].
  rewrite Hcol. apply in_or_app. right. now left.
Qed.
End MemoryLayerMore.

(* ================================================================== *)
(** ** More of the agent *)

Lemma fold_append_shift (texts : list string) : forall acc,
  fold_left (fun a t => a ++ t) texts acc
  = acc ++ fold_left (fun a t => a ++ t) texts EmptyString.
Proof.
  induction texts as [ | t texts IH]; intros acc; simpl.
  - clear. induction acc as [ | c acc IH]; simpl; [reflexivity | now rewrite <- IH].
  - rewrite IH. rewrite (IH t). now rewrite append_assoc.
Qed.

Lemma accumulate_texts events :
  accumulate events
  = fold_left (fun a t => a ++ t) (map event_text events) EmptyString.
Proof.
  unfold accumulate. generalize EmptyString.
  induction events as [ | e events IH]; intros acc; simpl; [reflexivity | apply IH].
Qed.

Lemma occurs_app c a b : occurs c (a ++ b) = occurs c a || occurs c b.
Proof.
  induction a as [ | x a IH]; simpl; [reflexivity | ].
  now rewrite IH, orb_assoc.
Qed.

Lemma from_first_open_suffix pre rest :
  exists pre', from_first_open (pre ++ String open_brace rest)
               = Some (pre' ++ String open_brace rest).
Proof.
  induction pre as [ | c pre IH]; simpl.
  - now exists EmptyString.
  - destruct (Ascii.eqb c open_brace).
    + now exists (String c pre).
    + exact IH.
Qed.

Lemma eq_str_true o s : eq_str o s = true -> o = Some (PStr s).
Proof.
  destruct o as [[ | | | | t | | ] | ]; simpl; try discriminate.
  intros H. apply String.eqb_eq in H. now subst.
Qed.

Section AgentMore.
Context {rt : PyRuntime}.
Variable env : Env.

Lemma add_raise_frame user_input metadata w e w2 :
  add env user_input metadata w = (Raise e, w2) ->
  pending_order w2 = pending_order w
  /\ (collection w2 = collection w
      \/ exists r,
          collection w2 = (collection w ++ [r])%list
          /\ print_fault env (calls w2) ("Stored memory: " ++ rec_document r)
             = Some e).
Proof.
  intros Hadd.
  pose proof (add_runs env user_input metadata w) as Hrun.
  rewrite Hadd in Hrun. cbn [fst snd] in Hrun.
  inversion Hrun as [e0 Hc Hr Hw | Hc Hr Hw | content e0 Hc He Hr Hw
                    | content vector e0 Hc He Hi Hr Hw
                    | content vector e0 Hc He Hi Hp Hr Hw
                    | ];
    (split; [reflexivity | ]); try (left; reflexivity).
  right. eexists. split; [reflexivity | exact Hp].
Qed.

Lemma add_ok_frame user_input metadata w fact w2 :
  add env user_input metadata w = (Ok fact, w2) ->
  pending_order w2 = pending_order w
  /\ exists r, collection w2 = (collection w ++ [r])%list /\ rec_document r = fact.
Proof.
  intros Hadd.
  pose proof (add_runs env user_input metadata w) as Hrun.
  rewrite Hadd in Hrun. cbn [fst snd] in Hrun.
  inversion Hrun as [ | | | | | content vector Hc He Hi Hp Hr Hw].
  split; [reflexivity | ].
  eexists. split; reflexivity.
Qed.

(** The guarded agent turn always returns, and leaves the store alone. *)
Lemma guarded_turn_frame user_input w :
  exists r w',
    try_except (agent_turn env user_input)
      (fun e => ret (error_response e)) w = (Ok r, w')
    /\ collection w' = collection w
    /\ calls w' = CallRunner user_input :: calls w.
Proof.
  unfold try_except. rewrite agent_turn_runs.
  destruct (snd (runner_run env (calls w) user_input)) as [e | ].
  - unfold ret. eauto.
  - rewrite decide_runs.
    destruct (extract_json _) as [[ | b | z | r | s | l | [ | kv d]] | ];
      repeat match goal with
             | |- context [if ?c then _ else _] => destruct c
             end;
      unfold ret; cbn; eauto.
Qed.

Lemma process_message_dispatch user_input w intent w1 :
  get_intent env user_input w = (Ok intent, w1) ->
  process_message env user_input w =
  match intent with
  | APPROVAL_REPLY => handle_approval user_input w1
  | STORE_FACT =>
      (fact <- add env user_input None ;; ret (learned_response fact)) w1
  | _ => try_except (agent_turn env user_input)
           (fun e => ret (error_response e)) w1
  end.
Proof.
  intros Hi. unfold process_message. unfold bind at 1. rewrite Hi.
  destruct intent; reflexivity.
Qed.

(** X7. [consult_memory_tool] is [search] with the limit 3, rendered: an
    empty result becomes the sentence "No specific rules found in memory.",
    a result with items becomes one line per item, a dash and the fact,
    joined by newlines, at most three of them, and an exception of [search]
    goes to the caller.  On an empty store the sentence is returned without
    any provider being asked. *)
Theorem consult_memory_tool_answers (query : string) (w : World) :
  consult_memory_tool env query w
  = match search env query 3 w with
    | (Ok [], w') => (Ok "No specific rules found in memory.", w')
    | (Ok (item :: items), w') =>
        (Ok (String.concat nl
               (map (fun m => "- " ++ item_fact m) (item :: items))), w')
    | (Raise e, w') => (Raise e, w')
    end
  /\ (forall items w',
        search env query 3 w = (Ok items, w') -> List.length items <= 3)
  /\ (collection w = [] ->
      consult_memory_tool env query w
      = (Ok "No specific rules found in memory.", w))
  /\ (forall a b,
        String.concat nl (map (fun m => "- " ++ item_fact m)
                            [mkItem a [] 0%Q; mkItem b [] 0%Q])
        = "- " ++ a ++ nl ++ "- " ++ b).
Proof.
  split; [ | split; [ | split]].
  - unfold consult_memory_tool. unfold bind.
    destruct (search env query 3 w) as [[[ | item items] | e] w'];
      reflexivity.
  - intros items w' Hs. rewrite search_runs in Hs.
    destruct (collection w) as [ | r0 records];
      [inversion Hs; cbn; lia | ].
    cbv zeta in Hs.
    destruct (embedding env (calls w) query) as [e | v]; [discriminate | ].
    destruct (Z.min 3 (Z.of_nat (List.length (r0 :: records))) <=? 0)%Z;
      [discriminate | ].
    injection Hs as Hitems Hw. rewrite <- Hitems, length_map.
    etransitivity; [apply nearest_length | lia].
  - intros Hcol. unfold consult_memory_tool. unfold bind.
    rewrite search_runs, Hcol. reflexivity.
  - intros a b. cbn [map String.concat item_fact].
    now rewrite !append_assoc.
Qed.

(** X8. A turn classified STORE_FACT calls [add] on the raw input outside
    any handler.  When [add] returns, the answer is the text "Learned: "
    followed by the extracted fact, the store has that one record more and
    the pending order is as before.  When [add] raises, [process_message]
    raises the same exception with the pending order as before; the store
    is then as before too, unless the [print] after the insert was what
    failed, in which case the record is stored. *)
Theorem learning_turn (user_input : string) (w w1 : World) :
  get_intent env user_input w = (Ok STORE_FACT, w1) ->
  match add env user_input None w1 with
  | (Ok fact, w2) =>
      process_message env user_input w
      = (Ok (mkResponse ("✅ Learned: " ++ fact)
               "Action: INGESTION via MemoryLayer"), w2)
      /\ pending_order w2 = pending_order w
      /\ exists r, collection w2 = (collection w ++ [r])%list
                   /\ rec_document r = fact
  | (Raise e, w2) =>
      process_message env user_input w = (Raise e, w2)
      /\ pending_order w2 = pending_order w
      /\ (collection w2 = collection w
          \/ exists r,
              collection w2 = (collection w ++ [r])%list
              /\ print_fault env (calls w2)
                   ("Stored memory: " ++ rec_document r) = Some e)
  end.
Proof.
  intros Hi. rewrite (process_message_dispatch _ _ _ _ Hi).
  destruct (get_intent_frame env user_input w) as [i [w1' [Hi' [Hp [Hc _]]]]].
  rewrite Hi in Hi'. inversion Hi'; subst i w1'. clear Hi'.
  unfold bind.
  destruct (add env user_input None w1) as [[fact | e] w2] eqn:Hadd.
  - destruct (add_ok_frame _ _ _ _ _ Hadd) as [Hp2 [r [Hr Hd]]].
    split; [reflexivity | ]. split; [congruence | ].
    exists r. split; [congruence | exact Hd].
  - destruct (add_raise_frame _ _ _ _ _ Hadd) as [Hp2 [Hc2 | [r [Hc2 Hpr]]]].
    + split; [reflexivity | ]. split; [congruence | left; congruence].
    + split; [reflexivity | ]. split; [congruence | right].
      exists r. split; [congruence | exact Hpr].
Qed.

(** X9. [process_message] raises in one situation only: the message was
    classified STORE_FACT and [add] raised.  Approval replies and agent
    turns always come back with a response. *)
Theorem process_message_raises_only_when_learning (user_input : string)
  (w w' : World) (e : exn) :
  process_message env user_input w = (Raise e, w') ->
  exists w1,
    get_intent env user_input w = (Ok STORE_FACT, w1)
    /\ add env user_input None w1 = (Raise e, w').
Proof.
  intros Hraise.
  destruct (get_intent_frame env user_input w) as [i [w1 [Hi [Hp [Hc Ha]]]]].
  rewrite (process_message_dispatch _ _ _ _ Hi) in Hraise.
  destruct i.
  - exfalso. rewrite handle_approval_runs in Hraise.
    assert (Ht : pending_truthy w = true) by now apply Ha.
    unfold pending_truthy in Ht. rewrite <- Hp in Ht.
    destruct (pending_order w1) as [[ | kv d] | ]; try discriminate.
    destruct (existsb _ affirmative); discriminate.
  - exists w1. split; [exact Hi | ].
    unfold bind in Hraise.
    destruct (add env user_input None w1) as [[fact | e'] w2];
      [discriminate | ]. now inversion Hraise.
  - exfalso. destruct (guarded_turn_frame user_input w1) as [r [w2 [H _]]].
    rewrite H in Hraise. discriminate.
  - exfalso. destruct (guarded_turn_frame user_input w1) as [r [w2 [H _]]].
    rewrite H in Hraise. discriminate.
Qed.

(** X10. The store is append-only under [process_message]: a turn leaves
    the records as they were, or, on a turn classified STORE_FACT, adds one
    record after them; no record is ever removed or rewritten. *)
Theorem store_is_append_only (user_input : string) (w : World) :
  let w' := snd (process_message env user_input w) in
  collection w' = collection w
  \/ exists r w1,
      get_intent env user_input w = (Ok STORE_FACT, w1)
      /\ collection w' = (collection w ++ [r])%list.
Proof.
  intros w'. subst w'.
  destruct (get_intent_frame env user_input w) as [i [w1 [Hi [Hp [Hc Ha]]]]].
  rewrite (process_message_dispatch _ _ _ _ Hi).
  destruct i.
  - left. rewrite handle_approval_runs.
    destruct (existsb _ affirmative); [destruct (pending_order w1) | ];
      cbn; exact Hc.
  - unfold bind.
    destruct (add env user_input None w1) as [[fact | e] w2] eqn:Hadd.
    + right. destruct (add_ok_frame _ _ _ _ _ Hadd) as [_ [r [Hr _]]].
      exists r, w1. split; [exact Hi | ]. cbn. congruence.
    + destruct (add_raise_frame _ _ _ _ _ Hadd) as [_ [Hc2 | [r [Hc2 _]]]].
      * left. cbn. congruence.
      * right. exists r, w1. split; [exact Hi | ]. cbn. congruence.
  - left. destruct (guarded_turn_frame user_input w1) as [r [w2 [H [Hc2 _]]]].
    rewrite H. cbn. congruence.
  - left. destruct (guarded_turn_frame user_input w1) as [r [w2 [H [Hc2 _]]]].
    rewrite H. cbn. congruence.
Qed.

Lemma decide_pending_status response_text w :
  pending_order (snd (decide response_text w)) = pending_order w
  \/ exists d,
      pending_order (snd (decide response_text w)) = Some d
      /\ dict_get "status" d = Some (PStr "PAUSE_APPROVAL_NEEDED").
Proof.
  rewrite decide_runs.
  destruct (extract_json response_text) as [v | ]; [ | now left].
  destruct v as [ | b | z | r | s | l | d];
    try (destruct (truthy _); now left).
  destruct d as [ | kv d]; [now left | ].
  destruct (eq_str _ _) eqn:E; [ | now left].
  right. exists (kv :: d). split; [reflexivity | now apply eq_str_true].
Qed.

Lemma process_message_pending_status user_input w :
  (forall d, pending_order w = Some d ->
             dict_get "status" d = Some (PStr "PAUSE_APPROVAL_NEEDED")) ->
  forall d, pending_order (snd (process_message env user_input w)) = Some d ->
            dict_get "status" d = Some (PStr "PAUSE_APPROVAL_NEEDED").
Proof.
  intros Hw d.
  destruct (get_intent_frame env user_input w) as [i [w1 [Hi [Hp [Hc Ha]]]]].
  rewrite (process_message_dispatch _ _ _ _ Hi).
  assert (Hturn :
            pending_order
              (snd (try_except (agent_turn env user_input)
                      (fun e => ret (error_response e)) w1)) = Some d ->
            dict_get "status" d = Some (PStr "PAUSE_APPROVAL_NEEDED")).
  { unfold try_except. rewrite agent_turn_runs.
    destruct (snd (runner_run env (calls w1) user_input)) as [e | ].
    - cbn. intros H. apply Hw. congruence.
    - destruct (decide_pending_status
                  (accumulate (fst (runner_run env (calls w1) user_input)))
                  (with_call (CallRunner user_input) w1)) as [H | [d' [H Hs]]];
        destruct (decide _ _) as [[r | e] w2]; cbn [snd] in *;
        unfold ret; cbn [snd]; intros Hd.
      + apply Hw. cbn in H. congruence.
      + apply Hw. cbn in H. congruence.
      + congruence.
      + congruence. }
  destruct i; try exact Hturn.
  - rewrite handle_approval_runs.
    destruct (existsb _ affirmative); [destruct (pending_order w1) | ];
      cbn; discriminate.
  - unfold bind.
    pose proof (add_pending env user_input None w1) as Hadd.
    destruct (add env user_input None w1) as [[fact | e] w2];
      cbn [snd] in *; unfold ret; cbn [snd]; intros Hd; apply Hw; congruence.
Qed.

(** X11. What a pending order is: in every state that the agent can reach,
    a pending order is a decision block whose status is the text
    PAUSE_APPROVAL_NEEDED; no other block is ever held for approval. *)
Theorem pending_order_awaits_approval (w : World) (d : dict) :
  reachable env w ->
  pending_order w = Some d ->
  dict_get "status" d = Some (PStr "PAUSE_APPROVAL_NEEDED").
Proof.
  intros Hr. revert d.
  induction Hr as [records | w user_input Hr IH].
  - cbn. discriminate.
  - now apply process_message_pending_status.
Qed.

(** X12. Pause and reply compose into a round trip: when a turn from the
    idle state ends with a decision block held for approval, the next
    message, whatever it is, is answered about that very block, with the
    text "Order Confirmed" naming the block's vendor when its lower-case
    form is "yes", "y", "approve" or "ok", and with the text "Order
    Cancelled" otherwise; the agent is then idle again, the store is as it
    was before the first turn, and the reply has cost no external call. *)
Theorem pause_then_reply_returns_to_idle (user_input reply : string)
  (w : World) (intent : Intent) (w1 : World) (events : list Event) (d : dict) :
  pending_order w = None ->
  get_intent env user_input w = (Ok intent, w1) ->
  intent = PROCUREMENT_REQUEST \/ intent = CHAT ->
  runner_run env (calls w1) user_input = (events, None) ->
  extract_json (accumulate events) = Some (PDict d) ->
  dict_get "status" d = Some (PStr "PAUSE_APPROVAL_NEEDED") ->
  let held := snd (process_message env user_input w) in
  let after := snd (process_message env reply held) in
  pending_order held = Some d
  /\ (In (str_lower reply) ["yes"; "y"; "approve"; "ok"] ->
      fst (process_message env reply held)
      = Ok (mkResponse
              ("✅ **Order Confirmed**." ++ nl ++ "Placed order with "
                 ++ fmt (dict_get "selected_vendor" d) ++ ".")
              "User manually approved."))
  /\ (~ In (str_lower reply) ["yes"; "y"; "approve"; "ok"] ->
      fst (process_message env reply held)
      = Ok (mkResponse "❌Order Cancelled." "User denied."))
  /\ after = mkWorld (collection w) None (CallRunner user_input :: calls w1)
  /\ calls after = calls held
  /\ (forall vendor, fmt (Some (PStr vendor)) = vendor)
  /\ fmt None = "None".
Proof.
  intros Hp Hi Hk Hrun Hjson Hs held after.
  assert (Hheld : held = with_pending (Some d)
                           (with_call (CallRunner user_input) w1)).
  { subst held. rewrite (process_message_agent env user_input w intent w1 Hi Hk).
    unfold try_except. rewrite agent_turn_runs, Hrun. cbn [fst snd].
    rewrite decide_runs, Hjson.
    destruct d as [ | kv d]; [discriminate | ].
    unfold eq_str. rewrite Hs, String.eqb_refl. reflexivity. }
  destruct (get_intent_frame env user_input w) as [i [w1' [Hi' [Hp1 [Hc1 _]]]]].
  rewrite Hi in Hi'. inversion Hi'; subst i w1'. clear Hi'.
  destruct d as [ | kv d]; [discriminate | ].
  assert (Hrep : process_message env reply held
                 = handle_approval reply held).
  { apply process_message_dispatch with (intent := APPROVAL_REPLY).
    apply get_intent_pending with (kv := kv) (d := d).
    rewrite Hheld. reflexivity. }
  subst after. rewrite Hrep, handle_approval_runs.
  assert (Hpo : pending_order held = Some (kv :: d))
    by (rewrite Hheld; reflexivity).
  rewrite Hpo.
  split; [reflexivity | ].
  destruct (existsb (String.eqb (str_lower reply)) affirmative) eqn:E.
  - apply existsb_eqb_In in E.
    split; [intros _; reflexivity | ].
    split; [intros Hn; exfalso; apply Hn; exact E | ].
    cbn [snd]. rewrite Hheld. unfold with_pending, with_call. cbn.
    rewrite Hc1. repeat split.
  - unfold affirmative in E.
    split; [intros Hin; apply existsb_eqb_In in Hin; congruence | ].
    split; [intros _; reflexivity | ].
    cbn [snd]. rewrite Hheld. unfold with_pending, with_call. cbn.
    rewrite Hc1. repeat split.
Qed.

(** X13. [handle_approval] clears the pending order on every path and
    touches nothing else.  Called with nothing pending, it answers a denial
    with the text "Order Cancelled", and on an affirmative word it raises
    the AttributeError of reading [get] from None, because it reads the
    vendor from the order that is not there; with an order pending it never
    raises. *)
Theorem handle_approval_always_clears (user_input : string) (w : World) :
  snd (handle_approval user_input w)
  = mkWorld (collection w) None (calls w)
  /\ (fst (handle_approval user_input w)
      = Raise (AttributeError "NoneType" "get")
      <-> pending_order w = None
          /\ In (str_lower user_input) ["yes"; "y"; "approve"; "ok"])
  /\ (forall e, fst (handle_approval user_input w) = Raise e ->
        e = AttributeError "NoneType" "get")
  /\ (~ In (str_lower user_input) ["yes"; "y"; "approve"; "ok"] ->
      fst (handle_approval user_input w)
      = Ok (mkResponse "❌Order Cancelled." "User denied."))
  /\ exn_str (AttributeError "NoneType" "get")
     = "'NoneType' object has no attribute 'get'".
Proof.
  rewrite handle_approval_runs.
  destruct (existsb (String.eqb (str_lower user_input)) affirmative) eqn:E.
  - apply existsb_eqb_In in E.
    destruct (pending_order w) as [d | ]; cbn [fst snd].
    + split; [reflexivity | ]. split; [split | ].
      * intros He. discriminate.
      * intros [Hd _]. discriminate.
      * split; [intros e He; discriminate | ].
        split; [intros Hn; exfalso; apply Hn; exact E | reflexivity].
    + split; [reflexivity | ]. split; [split | ].
      * intros _. split; [reflexivity | exact E].
      * intros _. reflexivity.
      * split; [intros e He; now inversion He | ].
        split; [intros Hn; exfalso; apply Hn; exact E | reflexivity].
  - unfold affirmative in E.
    assert (Hn : ~ In (str_lower user_input) ["yes"; "y"; "approve"; "ok"]).
    { intros Hin. apply existsb_eqb_In in Hin. congruence. }
    cbn [fst snd]. split; [reflexivity | ]. split; [split | ].
    + intros He. discriminate.
    + intros [_ Hin]. contradiction.
    + split; [intros e He; discriminate | ].
      split; [intros _; reflexivity | reflexivity].
Qed.

(** X14. The response text is the concatenation of the texts of the
    events in the order they arrive.  No event gives the empty text; an
    event adds its text in front of the text of the events after it; the
    text of an event is its [content] when that is a text, the texts of the
    parts of its [content] otherwise, or its own [text]; an event or a part
    without text, or whose text is None, adds nothing.  So the text of two
    runs of events is the text of the first followed by the text of the
    second, and cutting a text into two events changes nothing. *)
Theorem accumulate_concatenates (events1 events2 : list Event) :
  accumulate [] = EmptyString
  /\ (forall ev events,
        accumulate (ev :: events) = event_text ev ++ accumulate events)
  /\ (forall t, accumulate [EventText (Some t)] = t)
  /\ (forall s, accumulate [EventContent (ContentStr s)] = s)
  /\ (forall a b,
        accumulate
          [EventContent
             (ContentParts
                (Some [PartText (Some a); PartOther; PartText None;
                       PartText (Some b)]))]
        = a ++ b)
  /\ accumulate [EventOther; EventText None; EventContent ContentOther;
                 EventContent (ContentParts None)]
     = EmptyString
  /\ accumulate (events1 ++ events2) = accumulate events1 ++ accumulate events2
  /\ (forall a b,
        accumulate (events1 ++ EventText (Some (a ++ b)) :: events2)
        = accumulate (events1 ++ EventText (Some a) :: EventText (Some b)
                        :: events2)).
Proof.
  assert (Hnil : forall t : string, t ++ EmptyString = t).
  { induction t as [ | c t IH]; simpl; [reflexivity | now rewrite IH]. }
  assert (Happ : forall e1 e2,
             accumulate (e1 ++ e2) = accumulate e1 ++ accumulate e2).
  { intros e1 e2. rewrite !accumulate_texts, map_app, fold_left_app.
    apply fold_append_shift. }
  assert (Hcons : forall ev es,
             accumulate (ev :: es) = event_text ev ++ accumulate es).
  { intros ev es. rewrite !accumulate_texts. cbn [map fold_left].
    apply fold_append_shift. }
  split; [reflexivity | ].
  split; [exact Hcons | ].
  split; [intros t; reflexivity | ].
  split; [intros s; reflexivity | ].
  split.
  { intros a b. rewrite Hcons. cbn. now rewrite !Hnil. }
  split; [reflexivity | ].
  split; [apply Happ | ].
  intros a b. rewrite !Happ, !Hcons. cbn [event_text or_empty].
  now rewrite append_assoc.
Qed.

(** X15. The keywords are tried in order: in the idle state, a reply of
    the classifier that contains STORE_FACT is labelled STORE_FACT even if
    it also contains PROCUREMENT, and a reply that contains PROCUREMENT but
    not STORE_FACT is labelled PROCUREMENT_REQUEST, whatever else the reply
    says; one completion call is made. *)
Theorem classification_keyword_order (user_input : string) (w : World)
  (content : string) :
  pending_order w = None ->
  completion env (calls w) (classification_prompt user_input)
  = inr (Some content) ->
  let label := str_upper (str_strip content) in
  let w1 := with_call (CallCompletion (classification_prompt user_input)) w in
  (str_contains "STORE_FACT" label = true ->
     get_intent env user_input w = (Ok STORE_FACT, w1))
  /\ (str_contains "STORE_FACT" label = false ->
      str_contains "PROCUREMENT" label = true ->
      get_intent env user_input w = (Ok PROCUREMENT_REQUEST, w1)).
Proof.
  intros Hp Hc label w1. subst label w1.
  assert (Hidle : pending_truthy w = false)
    by (unfold pending_truthy; now rewrite Hp).
  rewrite (get_intent_idle env user_input w Hidle), Hc.
  cbn [intent_of_reply].
  split.
  - intros ->. reflexivity.
  - intros -> ->. reflexivity.
Qed.

(** X16. The match of the brace pattern is a fixed point of the search:
    it starts with an opening brace, ends with a closing brace, and
    searching it again returns it whole, so [extract_json] of an extracted
    stretch decodes that same stretch. *)
Theorem re_search_braces_idempotent (text m : string) :
  re_search_braces text = Some m ->
  re_search_braces m = Some m
  /\ extract_json m = json_loads m
  /\ exists mid, m = String open_brace (mid ++ String close_brace EmptyString).
Proof.
  intros Hm.
  destruct (re_search_braces_sound _ _ Hm)
    as [pre [mid [post [Ht [Hmm [Hpre Hpost]]]]]].
  assert (Hfix : re_search_braces m = Some m).
  { subst m.
    exact (re_search_braces_complete EmptyString mid EmptyString
             eq_refl eq_refl). }
  split; [exact Hfix | ]. split.
  - unfold extract_json. now rewrite Hfix.
  - now exists mid.
Qed.

(** X17. When nothing is found: the brace pattern has no match exactly
    when no opening brace of the text is followed, anywhere later, by a
    closing brace; on such a text [extract_json] returns nothing. *)
Theorem re_search_braces_none (text : string) :
  (re_search_braces text = None
   <-> ~ exists pre mid post,
         text = pre ++ String open_brace (mid ++ String close_brace post))
  /\ (re_search_braces text = None -> extract_json text = None).
Proof.
  split; [split | ].
  - intros Hnone [pre [mid [post Ht]]]. subst text.
    unfold re_search_braces in Hnone.
    destruct (from_first_open_suffix pre (mid ++ String close_brace post))
      as [pre' Hf].
    rewrite Hf in Hnone. apply upto_last_close_none in Hnone.
    change (pre' ++ String open_brace (mid ++ String close_brace post))
      with (pre' ++ (String open_brace EmptyString
                       ++ (mid ++ String close_brace post))) in Hnone.
    rewrite !occurs_app in Hnone. cbn [occurs] in Hnone.
    rewrite Ascii.eqb_refl in Hnone.
    rewrite !orb_true_r in Hnone. discriminate.
  - intros Hno. destruct (re_search_braces text) as [m | ] eqn:Hm;
      [ | reflexivity].
    exfalso. apply Hno.
    destruct (re_search_braces_sound _ _ Hm)
      as [pre [mid [post [Ht _]]]].
    now exists pre, mid, post.
  - intros Hnone. unfold extract_json. now rewrite Hnone.
Qed.
End AgentMore.

(* ================================================================== *)
(** ** The vendor search, the configuration and the chat handlers *)

Lemma prefix_app (a b : string) : String.prefix a (a ++ b) = true.
Proof.
  induction a as [ | x a IH]; simpl; [destruct b; reflexivity | ].
  destruct (ascii_dec x x) as [_ | Hne]; [exact IH | contradiction].
Qed.

Lemma str_contains_empty (hay : string) : str_contains EmptyString hay = true.
Proof. destruct hay; reflexivity. Qed.

Section VendorSearchFacts.
Context {rt : PyRuntime}.


(** X19. An empty product name selects every vendor: the empty text is
    contained in every product, so on a well-formed vendor list the search
    returns the whole list. *)
Theorem empty_product_name_selects_all (json_dumps : list pyval -> string)
  (vendors : list pyval) :
  str_lower EmptyString = EmptyString ->
  (forall v, In v vendors -> Tools.has_product v) ->
  Tools.search_vendors_tool (inr (PList vendors)) json_dumps EmptyString
  = inr (json_dumps vendors).
Proof.
  intros Hlow Hall.
  unfold Tools.search_vendors_tool, Tools.matches. cbn [Tools.iterate].
  rewrite Hlow.
  assert (Hsel : Tools.select EmptyString vendors = inr vendors).
  { induction vendors as [ | v vendors IH]; cbn [Tools.select]; [reflexivity | ].
    destruct (Hall v (or_introl eq_refl)) as [p Hp]. rewrite Hp.
    rewrite IH by (intros u Hu; apply Hall; now right).
    now rewrite str_contains_empty. }
  now rewrite Hsel.
Qed.

(** A vendor file of the wrong shape: a failure to open or decode
    the file goes to the caller; a file that holds an object with entries
    makes every search raise, since the loop then visits its keys; an empty
    object or an empty list gives the empty result; a number, a boolean or
    null cannot be looped over. *)
Remark vendor_file_of_wrong_shape (json_dumps : list pyval -> string)
  (product_name : string) :
  (forall e, Tools.search_vendors_tool (inl e) json_dumps product_name = inl e)
  /\ (forall k x d,
        Tools.search_vendors_tool (inr (PDict ((k, x) :: d))) json_dumps
          product_name
        = inl (Tools.NotSubscriptable "str"))
  /\ Tools.search_vendors_tool (inr (PDict [])) json_dumps product_name
     = inr (json_dumps [])
  /\ Tools.search_vendors_tool (inr (PList [])) json_dumps product_name
     = inr (json_dumps [])
  /\ (forall z,
        Tools.search_vendors_tool (inr (PInt z)) json_dumps product_name
        = inl (Tools.NotIterable "int"))
  /\ Tools.search_vendors_tool (inr PNone) json_dumps product_name
     = inl (Tools.NotIterable "NoneType").
Proof. repeat split. Qed.
End VendorSearchFacts.

(** X20. The model strings of the configuration: qualifying a model name
    with its provider is idempotent; with a provider that is not empty the
    result always starts with the provider and a slash, whether or not the
    name already carried them; with an empty provider the name is used as it
    is.  That holds for the chat model and for the embedding model, for
    every content of the process environment. *)
Theorem model_strings_carry_provider (environ : string -> option string)
  (provider name : string) :
  Config.model_string provider (Config.model_string provider name)
  = Config.model_string provider name
  /\ (if String.eqb provider EmptyString
      then Config.model_string provider name = name
      else String.prefix (provider ++ "/") (Config.model_string provider name)
           = true)
  /\ (Config.LLM_PROVIDER environ <> EmptyString ->
      String.prefix (Config.LLM_PROVIDER environ ++ "/")
        (Config.LLM_MODEL_STRING environ) = true)
  /\ (Config.EMBEDDING_PROVIDER environ <> EmptyString ->
      String.prefix (Config.EMBEDDING_PROVIDER environ ++ "/")
        (Config.EMBEDDING_MODEL_STRING environ) = true).
Proof.
  assert (Hpre : forall p n,
             String.eqb p EmptyString = false ->
             String.prefix (p ++ "/") (Config.model_string p n) = true).
  { intros p n Hp. unfold Config.model_string. rewrite Hp. cbn [negb andb].
    destruct (String.prefix (p ++ "/") n) eqn:E; cbn [negb]; [exact E | ].
    rewrite <- append_assoc. apply prefix_app. }
  split; [ | split; [ | split]].
  - destruct (String.eqb provider EmptyString) eqn:Hp.
    + unfold Config.model_string. now rewrite Hp.
    + unfold Config.model_string at 1. rewrite Hp, (Hpre _ _ Hp). reflexivity.
  - destruct (String.eqb provider EmptyString) eqn:Hp.
    + unfold Config.model_string. now rewrite Hp.
    + now apply Hpre.
  - intros Hne. apply Hpre. now apply String.eqb_neq.
  - intros Hne. apply Hpre. now apply String.eqb_neq.
Qed.

Section HandlerFacts.
Context {rt : PyRuntime}.
Variable env : Env.

(** X21. One round of the chat: [user_turn] clears the input box and
    appends the user's message; [bot_turn] on that history runs
    [process_message] on exactly that message and appends one assistant
    message holding the response, returning the reasoning beside it; an
    exception of [process_message] goes through.  On an empty history
    [bot_turn] raises before the agent is called. *)
Theorem user_turn_then_bot_turn (message : string) (history : list App.Turn)
  (w : World) :
  fst (App.user_turn message history) = EmptyString
  /\ App.bot_turn env (snd (App.user_turn message history)) w
     = match process_message env message w with
       | (Ok r, w') =>
           (Ok ((history ++ [App.mkTurn "user" message;
                             App.mkTurn "assistant" (response r)])%list,
                reasoning r), w')
       | (Raise e, w') => (Raise e, w')
       end
  /\ App.bot_turn env [] w = (Raise (IndexError "list index out of range"), w).
Proof.
  split; [reflexivity | split; [ | reflexivity]].
  unfold App.bot_turn, App.user_turn, App.last_turn, App.chat_response.
  cbn [snd]. rewrite rev_unit. unfold_monad. cbn [App.turn_content].
  destruct (process_message env message w) as [[r | e] w']; [ | reflexivity].
  cbn [fst snd]. now rewrite <- app_assoc.
Qed.

Lemma get_memory_df_runs w :
  App.get_memory_df w
  = (Ok (match collection w with
         | [] => App.mkDataFrame ["Fact"; "Metadata"] []
         | _ :: _ =>
             App.mkDataFrame ["Fact"; "Timestamp"]
               (map (fun r => App.row_of (memory_of r)) (collection w))
         end), w).
Proof.
  unfold App.get_memory_df. unfold bind. rewrite get_all_runs.
  destruct (collection w) as [ | r0 records]; [reflexivity | ].
  cbn [map]. unfold ret. now rewrite map_map.
Qed.

(** X22. The knowledge-base table has one row per stored record, in the
    order of the store, holding the fact and whatever the metadata has
    under "timestamp" (the empty text if nothing).  Its second column is
    named Timestamp, except for an empty store, where the empty table is
    built with the columns Fact and Metadata. *)
Theorem memory_table_shape (w : World) :
  exists table,
    App.get_memory_df w = (Ok table, w)
    /\ List.length (App.df_rows table) = List.length (collection w)
    /\ (forall i r,
          nth_error (collection w) i = Some r ->
          nth_error (App.df_rows table) i
          = Some [PStr (rec_document r);
                  match dict_get "timestamp" (rec_metadata r) with
                  | Some v => v
                  | None => PStr EmptyString
                  end])
    /\ App.df_columns table
       = match collection w with
         | [] => ["Fact"; "Metadata"]
         | _ :: _ => ["Fact"; "Timestamp"]
         end.
Proof.
  eexists. split; [apply get_memory_df_runs | ].
  destruct (collection w) as [ | r0 records]; cbn [App.df_rows App.df_columns].
  - split; [reflexivity | split; [ | reflexivity]].
    intros [ | i] r H; discriminate.
  - split; [now rewrite length_map | split; [ | reflexivity]].
    intros i r H. rewrite nth_error_map, H. reflexivity.
Qed.

(** X23. A learned fact in the table: after [add] has returned, the
    table has the columns Fact and Timestamp, one row more than the store
    had records, a row for the new fact whose timestamp cell reads
    2024-01-01T12:00:00 for every input and every moment of the call, and
    still a row for every record stored before. *)
Theorem learned_fact_row (user_input : string) (metadata : option dict)
  (w w1 : World) (fact : string) :
  add env user_input metadata w = (Ok fact, w1) ->
  exists table,
    App.get_memory_df w1 = (Ok table, w1)
    /\ App.df_columns table = ["Fact"; "Timestamp"]
    /\ List.length (App.df_rows table) = S (List.length (collection w))
    /\ In [PStr fact; PStr "2024-01-01T12:00:00"] (App.df_rows table)
    /\ (forall r, In r (collection w) ->
          In [PStr (rec_document r);
              match dict_get "timestamp" (rec_metadata r) with
              | Some v => v
              | None => PStr EmptyString
              end] (App.df_rows table)).
Proof.
  intros Hadd.
  destruct (add_ok env _ _ _ _ _ Hadd) as [vector [Hcol _]].
  eexists. split; [apply get_memory_df_runs | ].
  rewrite Hcol.
  destruct (collection w ++ [new_record env w user_input metadata fact vector])%list
    as [ | r0 records] eqn:E.
  - apply app_eq_nil in E. destruct E as [_ E]. discriminate.
  - rewrite <- E. cbn [App.df_columns App.df_rows].
    split; [reflexivity | ].
    split; [rewrite length_map, length_app; cbn; lia | ].
    split.
    + apply in_map_iff.
      exists (new_record env w user_input metadata fact vector).
      split; [ | apply in_or_app; right; now left].
      unfold App.row_of, App.timestamp_of, memory_of, new_record.
      cbn [mem_fact mem_metadata rec_document rec_metadata].
      now rewrite build_meta_timestamp.
    + intros r Hr. apply in_map_iff. exists r.
      split; [reflexivity | apply in_or_app; now left].
Qed.
End HandlerFacts.

(* ================================================================== *)
(** ** The further properties on concrete data *)

Section MoreConversations.
Import Scenario.

Example vendor_search_for_cement :
  Tools.matches (inr (PList Shop.vendors)) "CEMENT"
  = inr [Shop.vendor "BuildMart" "Portland Cement" 300;
         Shop.vendor "CemEx" "White cement" 340].
Proof. vm_compute. reflexivity. Qed.

Example consult_memory_after_learning :
  fst (consult_memory_tool env_learn "rules for cement" Shop.learned)
  = Ok "- Cement purchase limit is 50,000".
Proof. vm_compute. reflexivity. Qed.

Lemma search_returns_stored_records_witness :
  search env_learn "rules for cement" 3 Shop.learned
  = (Ok [mkItem "Cement purchase limit is 50,000"
           (build_meta "Limit is 50k for cement" None)
           (distance env_learn [1%Q; 0%Q] [1%Q; 0%Q])],
     with_call (CallEmbedding "rules for cement") Shop.learned)
  /\ collection Shop.learned <> []
  /\ exists v,
      embedding env_learn (calls Shop.learned) "rules for cement" = inr v
      /\ (0 < 3)%Z
      /\ (forall item,
            In item [mkItem "Cement purchase limit is 50,000"
                       (build_meta "Limit is 50k for cement" None)
                       (distance env_learn [1%Q; 0%Q] [1%Q; 0%Q])] ->
            exists r, In r (collection Shop.learned)
                      /\ item = mkItem (rec_document r) (rec_metadata r)
                                  (distance env_learn (rec_embedding r) v)).
Proof.
  assert (Hs : search env_learn "rules for cement" 3 Shop.learned
               = (Ok [mkItem "Cement purchase limit is 50,000"
                        (build_meta "Limit is 50k for cement" None)
                        (distance env_learn [1%Q; 0%Q] [1%Q; 0%Q])],
                  with_call (CallEmbedding "rules for cement") Shop.learned))
    by (vm_compute; reflexivity).
  assert (Hne : collection Shop.learned <> [])
    by (vm_compute; discriminate).
  split; [exact Hs | ]. split; [exact Hne | ].
  exact (search_returns_stored_records env_learn "rules for cement" 3
           Shop.learned _ _ Hs Hne).
Defined.

Lemma stored_fact_is_found_witness :
  add env_learn "Limit is 50k for cement" None idle
  = (Ok "Cement purchase limit is 50,000",
     snd (add env_learn "Limit is 50k for cement" None idle))
  /\ List.length
       (collection (snd (add env_learn "Limit is 50k for cement" None idle)))
     = S (List.length (collection idle))
  /\ calls (snd (search env_learn "rules for cement" 3
                  (snd (add env_learn "Limit is 50k for cement" None idle))))
     = CallEmbedding "rules for cement"
         :: calls (snd (add env_learn "Limit is 50k for cement" None idle))
  /\ (forall items w2,
        search env_learn "rules for cement" 3
          (snd (add env_learn "Limit is 50k for cement" None idle))
        = (Ok items, w2) ->
        List.length items
        = List.length
            (collection
               (snd (add env_learn "Limit is 50k for cement" None idle))) ->
        In "Cement purchase limit is 50,000" (map item_fact items)).
Proof.
  assert (Hadd : add env_learn "Limit is 50k for cement" None idle
                 = (Ok "Cement purchase limit is 50,000",
                    snd (add env_learn "Limit is 50k for cement" None idle)))
    by (vm_compute; reflexivity).
  split; [exact Hadd | ].
  exact (stored_fact_is_found env_learn "Limit is 50k for cement" None idle _
           "Cement purchase limit is 50,000" "rules for cement" 3 Hadd).
Defined.

Lemma learning_turn_witness :
  get_intent env_learn "Limit is 50k for cement" idle
  = (Ok STORE_FACT,
     snd (get_intent env_learn "Limit is 50k for cement" idle))
  /\ process_message env_learn "Limit is 50k for cement" idle
     = (Ok (mkResponse "✅ Learned: Cement purchase limit is 50,000"
              "Action: INGESTION via MemoryLayer"),
        Shop.learned)
  /\ pending_order Shop.learned = pending_order idle
  /\ exists r, collection Shop.learned = (collection idle ++ [r])%list
               /\ rec_document r = "Cement purchase limit is 50,000".
Proof.
  assert (Hi : get_intent env_learn "Limit is 50k for cement" idle
               = (Ok STORE_FACT,
                  snd (get_intent env_learn "Limit is 50k for cement" idle)))
    by (vm_compute; reflexivity).
  pose proof (learning_turn env_learn "Limit is 50k for cement" idle _ Hi) as H.
  assert (Hadd : add env_learn "Limit is 50k for cement" None
                   (snd (get_intent env_learn "Limit is 50k for cement" idle))
                 = (Ok "Cement purchase limit is 50,000", Shop.learned))
    by (vm_compute; reflexivity).
  rewrite Hadd in H. split; [exact Hi | exact H].
Defined.

Lemma process_message_raises_only_when_learning_witness :
  process_message Shop.env_learn_down "Limit is 50k for cement" idle
  = (Raise (ProviderError "rate limit exceeded"),
     snd (process_message Shop.env_learn_down "Limit is 50k for cement" idle))
  /\ exists w1,
      get_intent Shop.env_learn_down "Limit is 50k for cement" idle
      = (Ok STORE_FACT, w1)
      /\ add Shop.env_learn_down "Limit is 50k for cement" None w1
         = (Raise (ProviderError "rate limit exceeded"),
            snd (process_message Shop.env_learn_down
                   "Limit is 50k for cement" idle)).
Proof.
  assert (Hraise :
            process_message Shop.env_learn_down "Limit is 50k for cement" idle
            = (Raise (ProviderError "rate limit exceeded"),
               snd (process_message Shop.env_learn_down
                      "Limit is 50k for cement" idle)))
    by (vm_compute; reflexivity).
  split; [exact Hraise | ].
  exact (process_message_raises_only_when_learning Shop.env_learn_down
           "Limit is 50k for cement" idle _ _ Hraise).
Defined.

Lemma pending_order_awaits_approval_witness :
  pending_order pending = Some pause_block
  /\ dict_get "status" pause_block = Some (PStr "PAUSE_APPROVAL_NEEDED").
Proof.
  assert (Hp : pending_order pending = Some pause_block)
    by (vm_compute; reflexivity).
  split; [exact Hp | ].
  exact (pending_order_awaits_approval env_pause pending pause_block
           pending_reachable Hp).
Defined.

Lemma pause_then_reply_returns_to_idle_witness :
  pending_order pending = Some pause_block
  /\ process_message env_pause "OK" pending
     = (Ok (mkResponse
              ("✅ **Order Confirmed**." ++ nl ++ "Placed order with BuildMart.")
              "User manually approved."),
        mkWorld [] None
          [CallRunner "Order 200 bags of cement";
           CallCompletion (classification_prompt "Order 200 bags of cement")])
  /\ process_message env_pause "not now" pending
     = (Ok (mkResponse "❌Order Cancelled." "User denied."),
        mkWorld [] None
          [CallRunner "Order 200 bags of cement";
           CallCompletion (classification_prompt "Order 200 bags of cement")]).
Proof.
  assert (Hi : get_intent env_pause "Order 200 bags of cement" idle
               = (Ok PROCUREMENT_REQUEST,
                  snd (get_intent env_pause "Order 200 bags of cement" idle)))
    by (vm_compute; reflexivity).
  assert (Hjson : extract_json (accumulate (fst (says pause_answer)))
                  = Some (PDict pause_block))
    by (vm_compute; reflexivity).
  assert (Hyes : In (str_lower "OK") ["yes"; "y"; "approve"; "ok"])
    by (vm_compute; tauto).
  assert (Hno : ~ In (str_lower "not now") ["yes"; "y"; "approve"; "ok"])
    by (vm_compute; intros [H | [H | [H | [H | []]]]]; discriminate).
  pose proof (pause_then_reply_returns_to_idle env_pause
                "Order 200 bags of cement" "OK" idle PROCUREMENT_REQUEST _
                (fst (says pause_answer)) pause_block
                eq_refl Hi (or_introl eq_refl) eq_refl Hjson eq_refl) as H.
  pose proof (pause_then_reply_returns_to_idle env_pause
                "Order 200 bags of cement" "not now" idle PROCUREMENT_REQUEST _
                (fst (says pause_answer)) pause_block
                eq_refl Hi (or_introl eq_refl) eq_refl Hjson eq_refl) as H'.
  cbv zeta in H, H'.
  destruct H as [Hheld [Hok [_ [Hafter _]]]].
  destruct H' as [_ [_ [Hden [Hafter' _]]]].
  split; [exact Hheld | ]. split.
  - apply injective_projections; [exact (Hok Hyes) | exact Hafter].
  - apply injective_projections; [exact (Hden Hno) | exact Hafter'].
Defined.

Lemma classification_keyword_order_witness :
  get_intent Shop.env_two_labels "Remember that cement is capped" idle
  = (Ok STORE_FACT,
     with_call
       (CallCompletion (classification_prompt "Remember that cement is capped"))
       idle).
Proof.
  refine (proj1 (classification_keyword_order Shop.env_two_labels
                   "Remember that cement is capped" idle
                   "store_fact rather than procurement_request"
                   eq_refl _) _).
  - vm_compute. reflexivity.
  - vm_compute. reflexivity.
Defined.

Lemma re_search_braces_idempotent_witness :
  re_search_braces "{a} and {b}" = Some "{a} and {b}".
Proof.
  exact (proj1 (re_search_braces_idempotent (rt := ascii_runtime)
                  "see {a} and {b}." "{a} and {b}" eq_refl)).
Defined.

Lemma empty_product_name_selects_all_witness :
  Tools.search_vendors_tool (inr (PList Shop.vendors)) Shop.json_dumps
    EmptyString
  = inr (Shop.json_dumps Shop.vendors).
Proof.
  apply (empty_product_name_selects_all Shop.json_dumps Shop.vendors).
  - reflexivity.
  - intros v Hv. unfold Tools.has_product.
    destruct Hv as [<- | [<- | [<- | []]]]; eexists; vm_compute; reflexivity.
Defined.

Lemma learned_fact_row_witness :
  add env_learn "Limit is 50k for cement" None idle
  = (Ok "Cement purchase limit is 50,000",
     snd (add env_learn "Limit is 50k for cement" None idle))
  /\ exists table,
      App.get_memory_df
        (snd (add env_learn "Limit is 50k for cement" None idle))
      = (Ok table, snd (add env_learn "Limit is 50k for cement" None idle))
      /\ App.df_columns table = ["Fact"; "Timestamp"]
      /\ List.length (App.df_rows table) = S (List.length (collection idle))
      /\ In [PStr "Cement purchase limit is 50,000";
             PStr "2024-01-01T12:00:00"] (App.df_rows table)
      /\ (forall r, In r (collection idle) ->
            In [PStr (rec_document r);
                match dict_get "timestamp" (rec_metadata r) with
                | Some v => v
                | None => PStr EmptyString
                end] (App.df_rows table)).
Proof.
  assert (Hadd : add env_learn "Limit is 50k for cement" None idle
                 = (Ok "Cement purchase limit is 50,000",
                    snd (add env_learn "Limit is 50k for cement" None idle)))
    by (vm_compute; reflexivity).
  split; [exact Hadd | ].
  exact (learned_fact_row env_learn "Limit is 50k for cement" None idle _
           "Cement purchase limit is 50,000" Hadd).
Defined.
End MoreConversations.
